(** * The fleet daemon (pkg/fleet/daemon/daemon.go)

    A shallow embedding of the daemon's orchestration code: the local API
    (Install, StartExperiment, PromoteExperiment, StopExperiment, GetPackage,
    GetState), the remote callbacks (handleCatalogUpdate,
    scheduleRemoteAPIRequest), the request handler, the state reporter
    (refreshState) and the background loop started by Start.

    Sequential code is written in a small state-and-trace monad: a
    computation takes the daemon and returns its result, the new daemon and
    the calls it made to its collaborators, oldest first.  The goroutines
    (dispatch loop, caller of Stop) are put together in a step relation at
    the end of the file. *)

From stdpp Require Import base strings list gmap.

Set Default Proof Using "Type".
Open Scope string_scope.
Open Scope list_scope.
Open Scope stdpp_scope.

(** ** Errors

    Go [error] values.  [fmt.Errorf("prefix: %w", err)] keeps the cause. *)

Inductive error : Type :=
| errorString (msg : string)
| wrapError (prefix : string) (cause : error).

(** The text of [err.Error()]. *)
Fixpoint Error (e : error) : string :=
  match e with
  | errorString msg => msg
  | wrapError prefix cause => prefix +:+ ": " +:+ Error cause
  end.

(** ** Types of the collaborating packages *)

Module repository.
(** [repository.State]: the installed versions of one package. *)
Record State : Type := { Stable : string; Experiment : string }.

(** The [%v] rendering of the struct. *)
Definition format (s : State) : string :=
  "{" +:+ Stable s +:+ " " +:+ Experiment s +:+ "}".
End repository.

Module pbgo.
Inductive TaskState : Type :=
| TaskState_RUNNING
| TaskState_INVALID_STATE
| TaskState_DONE
| TaskState_ERROR.

Record TaskError : Type := { Code : N; Message : string }.

Record PackageStateTask : Type :=
  { Id : string; State : TaskState; Error : option TaskError }.

Record PackageState : Type :=
  { Package : string;
    StableVersion : string;
    ExperimentVersion : string;
    Task : option PackageStateTask }.

(** A request is over once its task left RUNNING. *)
Definition terminal (s : TaskState) : bool :=
  match s with
  | TaskState_RUNNING => false
  | _ => true
  end.
End pbgo.

Module installerErrors.
(** Modelled from the spec: [InstallerError] is declared in the package of
    the installer errors; it is "a structured error with a numeric code and
    human-readable message", read by [Code()] and [Error()]. *)
Record InstallerError : Type := { Code : N; Error : string }.
End installerErrors.

Module Package.
(** Modelled from the spec: the [Package] struct is declared with the
    catalog; it is "a resolved artifact descriptor: name, version,
    target OS, target architecture, download URL".  The daemon reads
    [URL] only. *)
Record t : Type :=
  { Name : string;
    Version : string;
    Platform : string;
    Arch : string;
    URL : string }.

(** [Package{}] *)
Definition zero : t :=
  {| Name := ""; Version := ""; Platform := ""; Arch := ""; URL := "" |}.
End Package.

Module expectedState.
Record t : Type := { Stable : string; Experiment : string }.

Definition format (s : t) : string :=
  "{" +:+ Stable s +:+ " " +:+ Experiment s +:+ "}".
End expectedState.

Module remoteAPIRequest.
(** Modelled from the spec: the request struct is declared with the remote
    configuration; these are the fields the daemon reads.  [Params] is the
    raw JSON payload. *)
Record t : Type :=
  { ID : string;
    Package : string;
    TraceID : string;
    ParentSpanID : string;
    ExpectedState : expectedState.t;
    Method : string;
    Params : string }.
End remoteAPIRequest.

Module taskWithVersionParams.
Record t : Type := { Version : string }.
End taskWithVersionParams.

Module requestState.
(** [requestState]: the state of a task, kept in the request context. *)
Record t : Type :=
  { Package : string;
    ID : string;
    State : pbgo.TaskState;
    Err : option installerErrors.InstallerError }.
End requestState.

(** A [context.Context] as the daemon reads it: the request state stored
    under [requestStateKey], when there is one.  The key is private to the
    package, so contexts of local callers carry none. *)
Definition context : Type := option requestState.t.

Module installer.
(** The [installer.Installer] interface over the installer's own state
    [I].  Operations return the new state and the error ([None] is
    [nil]); the two queries read the state. *)
Class Installer (I : Type) : Type :=
  { Install : I → string → I * option error;
    InstallExperiment : I → string → I * option error;
    PromoteExperiment : I → string → I * option error;
    RemoveExperiment : I → string → I * option error;
    GarbageCollect : I → I * option error;
    State : I → string → error + repository.State;
    States : I → error + gmap string repository.State }.
End installer.

(** What the daemon takes from the rest of the package, from the library
    and from the platform: the catalog type with its lookup, the method
    names of remote requests, the decoder of the parameters of a request,
    the translation of errors for remote reporting, and the platform
    constants. *)
Class Externals (C : Type) : Type :=
  { (** [catalog.getPackage(pkg, version, arch, platform)] *)
    getPackage : C → string → string → string → string → option Package.t;
    (** [catalog{}] *)
    emptyCatalog : C;
    GOARCH : string;
    GOOS : string;
    methodStartExperiment : string;
    methodStopExperiment : string;
    methodPromoteExperiment : string;
    (** the three are constants of one switch, which Go wants distinct *)
    methods_distinct :
      NoDup [methodStartExperiment; methodStopExperiment; methodPromoteExperiment];
    (** [json.Unmarshal(request.Params, &params)] *)
    unmarshalParams : string → error + taskWithVersionParams.t;
    (** [installerErrors.From], applied to non-nil errors only *)
    From : error → installerErrors.InstallerError }.

(** Modelled from the spec: the remote transport handle [remoteConfig] is
    declared with the remote configuration.  The daemon starts it with its two
    callbacks, closes it, and publishes the package states through it. *)
Module remoteConfig.
Record t : Type :=
  { started : bool;
    closed : bool;
    state : list pbgo.PackageState }.

Definition Start (r : t) : t :=
  {| started := true; closed := closed r; state := state r |}.
Definition Close (r : t) : t :=
  {| started := started r; closed := true; state := state r |}.
Definition SetState (r : t) (packages : list pbgo.PackageState) : t :=
  {| started := started r; closed := closed r; state := packages |}.
End remoteConfig.

(** ** The daemon *)

Module daemonImpl.
(** The fields of [daemonImpl] but the mutex, whose owner is part of the
    goroutine state further down.  [stopChan] is true once the channel is
    closed; [requests] is the content of the buffered channel, oldest
    first; [requestsWG] is the counter of the wait group. *)
Record t {I C : Type} : Type :=
  { stopChan : bool;
    installer : I;
    remoteUpdates : bool;
    rc : remoteConfig.t;
    catalog : C;
    requests : list remoteAPIRequest.t;
    requestsWG : Z }.
Arguments t : clear implicits.
End daemonImpl.

(** Calls and log lines, as they are seen from outside the daemon.
    [EvRefreshState] marks an entry into [refreshState]. *)
Inductive event : Type :=
| EvLock
| EvUnlock
| EvRefreshState
| EvInstall (url : string)
| EvInstallExperiment (url : string)
| EvPromoteExperiment (pkg : string)
| EvRemoveExperiment (pkg : string)
| EvGarbageCollect
| EvState (pkg : string)
| EvStates
| EvSetState (packages : list pbgo.PackageState)
| EvRCStart
| EvRCClose
| EvInfof (msg : string)
| EvErrorf (msg : string).

(** The calls that change what is installed. *)
Definition mutating (e : event) : bool :=
  match e with
  | EvInstall _ | EvInstallExperiment _
  | EvPromoteExperiment _ | EvRemoveExperiment _ => true
  | _ => false
  end.

Definition isSetState (e : event) : bool :=
  match e with
  | EvSetState _ => true
  | _ => false
  end.

Definition isState (e : event) : bool :=
  match e with
  | EvState _ => true
  | _ => false
  end.

Definition isErrorf (e : event) : bool :=
  match e with
  | EvErrorf _ => true
  | _ => false
  end.

Definition isRefreshState (e : event) : bool :=
  match e with
  | EvRefreshState => true
  | _ => false
  end.

(** How a call ended: with its results, or in a panic. *)
Inductive completion (A : Type) : Type :=
| Returns (a : A)
| Panics (msg : string).
Arguments Returns {A} a.
Arguments Panics {A} msg.

(** What a run of a computation leaves behind. *)
Record outcome (D A : Type) : Type :=
  { result : A; after : D; trace : list event }.
Arguments result {D A} o.
Arguments after {D A} o.
Arguments trace {D A} o.

(** [make(chan remoteAPIRequest, 32)] *)
Definition requestsCapacity : nat := 32.

Section Daemon.
Context {I C : Type} `{!installer.Installer I} `{!Externals C}.

Local Abbreviation daemon := (daemonImpl.t I C).

(** *** Field updates *)

Definition set_stopChan (b : bool) (d : daemon) : daemon :=
  {| daemonImpl.stopChan := b;
     daemonImpl.installer := daemonImpl.installer d;
     daemonImpl.remoteUpdates := daemonImpl.remoteUpdates d;
     daemonImpl.rc := daemonImpl.rc d;
     daemonImpl.catalog := daemonImpl.catalog d;
     daemonImpl.requests := daemonImpl.requests d;
     daemonImpl.requestsWG := daemonImpl.requestsWG d |}.

Definition set_installer (i : I) (d : daemon) : daemon :=
  {| daemonImpl.stopChan := daemonImpl.stopChan d;
     daemonImpl.installer := i;
     daemonImpl.remoteUpdates := daemonImpl.remoteUpdates d;
     daemonImpl.rc := daemonImpl.rc d;
     daemonImpl.catalog := daemonImpl.catalog d;
     daemonImpl.requests := daemonImpl.requests d;
     daemonImpl.requestsWG := daemonImpl.requestsWG d |}.

Definition set_rc (r : remoteConfig.t) (d : daemon) : daemon :=
  {| daemonImpl.stopChan := daemonImpl.stopChan d;
     daemonImpl.installer := daemonImpl.installer d;
     daemonImpl.remoteUpdates := daemonImpl.remoteUpdates d;
     daemonImpl.rc := r;
     daemonImpl.catalog := daemonImpl.catalog d;
     daemonImpl.requests := daemonImpl.requests d;
     daemonImpl.requestsWG := daemonImpl.requestsWG d |}.

Definition set_catalog (c : C) (d : daemon) : daemon :=
  {| daemonImpl.stopChan := daemonImpl.stopChan d;
     daemonImpl.installer := daemonImpl.installer d;
     daemonImpl.remoteUpdates := daemonImpl.remoteUpdates d;
     daemonImpl.rc := daemonImpl.rc d;
     daemonImpl.catalog := c;
     daemonImpl.requests := daemonImpl.requests d;
     daemonImpl.requestsWG := daemonImpl.requestsWG d |}.

Definition set_requests (q : list remoteAPIRequest.t) (d : daemon) : daemon :=
  {| daemonImpl.stopChan := daemonImpl.stopChan d;
     daemonImpl.installer := daemonImpl.installer d;
     daemonImpl.remoteUpdates := daemonImpl.remoteUpdates d;
     daemonImpl.rc := daemonImpl.rc d;
     daemonImpl.catalog := daemonImpl.catalog d;
     daemonImpl.requests := q;
     daemonImpl.requestsWG := daemonImpl.requestsWG d |}.

Definition set_requestsWG (n : Z) (d : daemon) : daemon :=
  {| daemonImpl.stopChan := daemonImpl.stopChan d;
     daemonImpl.installer := daemonImpl.installer d;
     daemonImpl.remoteUpdates := daemonImpl.remoteUpdates d;
     daemonImpl.rc := daemonImpl.rc d;
     daemonImpl.catalog := daemonImpl.catalog d;
     daemonImpl.requests := daemonImpl.requests d;
     daemonImpl.requestsWG := n |}.

(** *** The monad of daemon code *)

Definition M (A : Type) : Type := daemon → outcome daemon A.

Definition ret {A : Type} (a : A) : M A :=
  λ d, {| result := a; after := d; trace := [] |}.

Definition bind {A B : Type} (m : M A) (k : A → M B) : M B :=
  λ d,
    let o1 := m d in
    let o2 := k (result o1) (after o1) in
    {| result := result o2; after := after o2; trace := trace o1 ++ trace o2 |}.

Notation "'let*' x ':=' m 'in' k" := (bind m (λ x, k))
  (at level 10, x pattern, m at level 100, k at level 200, only parsing).
Notation "m >> k" := (bind m (λ _, k))
  (at level 80, right associativity, only parsing).

(** [defer deferred body]: the body of a function that starts with
    [defer deferred()].  The deferred call runs when the body has returned;
    the function returns what the body returned. *)
Definition defer {A : Type} (deferred : M unit) (body : M A) : M A :=
  let* a := body in
  deferred >>
  ret a.

Definition get : M daemon :=
  λ d, {| result := d; after := d; trace := [] |}.

Definition modify (f : daemon → daemon) : M unit :=
  λ d, {| result := tt; after := f d; trace := [] |}.

Definition emit (e : event) : M unit :=
  λ d, {| result := tt; after := d; trace := [e] |}.

(** [d.m.Lock()] and [d.m.Unlock()], seen from the goroutine that was
    granted the mutex. *)
Definition Lock : M unit := emit EvLock.
Definition Unlock : M unit := emit EvUnlock.

Definition Infof (msg : string) : M unit := emit (EvInfof msg).
Definition Errorf (msg : string) : M unit := emit (EvErrorf msg).

(** *** Calls to the collaborators *)

Definition operation (e : event) (f : I → I * option error) : M (option error) :=
  λ d,
    let r := f (daemonImpl.installer d) in
    {| result := r.2; after := set_installer r.1 d; trace := [e] |}.

Definition installer_Install (url : string) : M (option error) :=
  operation (EvInstall url) (λ i, installer.Install i url).
Definition installer_InstallExperiment (url : string) : M (option error) :=
  operation (EvInstallExperiment url) (λ i, installer.InstallExperiment i url).
Definition installer_PromoteExperiment (pkg : string) : M (option error) :=
  operation (EvPromoteExperiment pkg) (λ i, installer.PromoteExperiment i pkg).
Definition installer_RemoveExperiment (pkg : string) : M (option error) :=
  operation (EvRemoveExperiment pkg) (λ i, installer.RemoveExperiment i pkg).
Definition installer_GarbageCollect : M (option error) :=
  operation EvGarbageCollect installer.GarbageCollect.

Definition installer_State (pkg : string) : M (error + repository.State) :=
  λ d, {| result := installer.State (daemonImpl.installer d) pkg;
          after := d; trace := [EvState pkg] |}.
Definition installer_States : M (error + gmap string repository.State) :=
  λ d, {| result := installer.States (daemonImpl.installer d);
          after := d; trace := [EvStates] |}.

Definition rc_SetState (packages : list pbgo.PackageState) : M unit :=
  λ d, {| result := tt;
          after := set_rc (remoteConfig.SetState (daemonImpl.rc d) packages) d;
          trace := [EvSetState packages] |}.
Definition rc_Start : M unit :=
  λ d, {| result := tt;
          after := set_rc (remoteConfig.Start (daemonImpl.rc d)) d;
          trace := [EvRCStart] |}.
Definition rc_Close : M unit :=
  λ d, {| result := tt;
          after := set_rc (remoteConfig.Close (daemonImpl.rc d)) d;
          trace := [EvRCClose] |}.

(** [fmt.Errorf(prefix + ": %w", err)] on the error of an operation. *)
Definition wrapping (prefix : string) (err : option error) : option error :=
  wrapError prefix <$> err.

(** *** The state reporter *)

(** The [pbgo.PackageState] built for one entry of the installer's map. *)
Definition packageState (ctx : context) (pkg : string) (s : repository.State)
  : pbgo.PackageState :=
  {| pbgo.Package := pkg;
     pbgo.StableVersion := repository.Stable s;
     pbgo.ExperimentVersion := repository.Experiment s;
     pbgo.Task :=
       match ctx with
       | Some requestState =>
           if decide (pkg = requestState.Package requestState) then
             Some {| pbgo.Id := requestState.ID requestState;
                     pbgo.State := requestState.State requestState;
                     pbgo.Error :=
                       (λ e, {| pbgo.Code := installerErrors.Code e;
                                pbgo.Message := installerErrors.Error e |})
                         <$> requestState.Err requestState |}
           else None
       | None => None
       end |}.

(** [refreshState].  The loop over the map goes through its entries in the
    order of [map_to_list]; Go leaves the order open. *)
Definition refreshState (ctx : context) : M unit :=
  emit EvRefreshState >>
  let* r := installer_States in
  match r with
  | inl err => Errorf ("could not get installer state: " +:+ Error err)
  | inr state =>
      rc_SetState ((λ e, packageState ctx e.1 e.2) <$> map_to_list state)
  end.

(** *** The local API *)

Definition newDaemon (rc : remoteConfig.t) (i : I) (remoteUpdates : bool)
  : outcome daemon unit :=
  refreshState None
    {| daemonImpl.stopChan := false;
       daemonImpl.installer := i;
       daemonImpl.remoteUpdates := remoteUpdates;
       daemonImpl.rc := rc;
       daemonImpl.catalog := emptyCatalog;
       daemonImpl.requests := [];
       daemonImpl.requestsWG := 0 |}.

Definition GetState : M (error + gmap string repository.State) :=
  Lock >>
  let* r := installer_States in
  Unlock >>
  ret r.

Definition GetPackage (pkg version : string) : M (error + Package.t) :=
  Lock >>
  let* d := get in
  let r :=
    match getPackage (daemonImpl.catalog d) pkg version GOARCH GOOS with
    | None =>
        inl (errorString ("could not get package " +:+ pkg +:+ ", " +:+ version
                          +:+ " for " +:+ GOARCH +:+ ", " +:+ GOOS))
    | Some catalogPackage => inr catalogPackage
    end in
  Unlock >>
  ret r.

Definition install (ctx : context) (url : string) : M (option error) :=
  refreshState ctx >>
  defer (refreshState ctx) (
    Infof ("Daemon: Installing package from " +:+ url) >>
    let* err := installer_Install url in
    match err with
    | Some e => ret (Some (wrapError "could not install" e))
    | None =>
        Infof ("Daemon: Successfully installed package from " +:+ url) >>
        ret None
    end).

Definition Install (ctx : context) (url : string) : M (option error) :=
  Lock >>
  defer Unlock (install ctx url).

Definition startExperiment (ctx : context) (url : string) : M (option error) :=
  refreshState ctx >>
  defer (refreshState ctx) (
    Infof ("Daemon: Starting experiment for package from " +:+ url) >>
    let* err := installer_InstallExperiment url in
    match err with
    | Some e => ret (Some (wrapError "could not install experiment" e))
    | None =>
        Infof ("Daemon: Successfully started experiment for package from " +:+ url) >>
        ret None
    end).

Definition StartExperiment (ctx : context) (url : string) : M (option error) :=
  Lock >>
  defer Unlock (startExperiment ctx url).

Definition promoteExperiment (ctx : context) (pkg : string) : M (option error) :=
  refreshState ctx >>
  defer (refreshState ctx) (
    Infof ("Daemon: Promoting experiment for package " +:+ pkg) >>
    let* err := installer_PromoteExperiment pkg in
    match err with
    | Some e => ret (Some (wrapError "could not promote experiment" e))
    | None =>
        Infof ("Daemon: Successfully promoted experiment for package " +:+ pkg) >>
        ret None
    end).

Definition PromoteExperiment (ctx : context) (pkg : string) : M (option error) :=
  Lock >>
  defer Unlock (promoteExperiment ctx pkg).

Definition stopExperiment (ctx : context) (pkg : string) : M (option error) :=
  refreshState ctx >>
  defer (refreshState ctx) (
    Infof ("Daemon: Stopping experiment for package " +:+ pkg) >>
    let* err := installer_RemoveExperiment pkg in
    match err with
    | Some e => ret (Some (wrapError "could not stop experiment" e))
    | None =>
        Infof ("Daemon: Successfully stopped experiment for package " +:+ pkg) >>
        ret None
    end).

Definition StopExperiment (ctx : context) (pkg : string) : M (option error) :=
  Lock >>
  defer Unlock (stopExperiment ctx pkg).

(** *** The remote callbacks *)

Definition handleCatalogUpdate (c : C) : M (option error) :=
  Lock >>
  defer Unlock (
    Infof "Installer: Received catalog update" >>
    modify (set_catalog c) >>
    ret None).

(** [scheduleRemoteAPIRequest]: [None] is a sender that stays blocked on the
    full channel, after it has added its unit to the wait group. *)
Definition scheduleRemoteAPIRequest (request : remoteAPIRequest.t)
  : M (option (option error)) :=
  modify (λ d, set_requestsWG (daemonImpl.requestsWG d + 1)%Z d) >>
  let* d := get in
  if decide (length (daemonImpl.requests d) < requestsCapacity) then
    modify (set_requests (daemonImpl.requests d ++ [request])) >>
    ret (Some None)
  else ret None.

(** *** The request state *)

(** The [requestState] that [newRequestContext] puts in the context. *)
Definition newRequestContext (request : remoteAPIRequest.t) : requestState.t :=
  {| requestState.Package := remoteAPIRequest.Package request;
     requestState.ID := remoteAPIRequest.ID request;
     requestState.State := pbgo.TaskState_RUNNING;
     requestState.Err := None |}.

Definition setRequestInvalid (state : requestState.t) : requestState.t :=
  {| requestState.Package := requestState.Package state;
     requestState.ID := requestState.ID state;
     requestState.State := pbgo.TaskState_INVALID_STATE;
     requestState.Err := requestState.Err state |}.

Definition setRequestDone (state : requestState.t) (err : option error)
  : requestState.t :=
  match err with
  | None =>
      {| requestState.Package := requestState.Package state;
         requestState.ID := requestState.ID state;
         requestState.State := pbgo.TaskState_DONE;
         requestState.Err := requestState.Err state |}
  | Some e =>
      {| requestState.Package := requestState.Package state;
         requestState.ID := requestState.ID state;
         requestState.State := pbgo.TaskState_ERROR;
         requestState.Err := Some (From e) |}
  end.

(** *** The request handler *)

(** [d.requestsWG.Done()]: false when the counter went below zero, where
    the wait group panics. *)
Definition requestsWG_Done : M bool :=
  modify (λ d, set_requestsWG (daemonImpl.requestsWG d - 1)%Z d) >>
  let* d := get in
  ret (bool_decide (0 ≤ daemonImpl.requestsWG d)%Z).

(** The comparison of the reported state with the expected one. *)
Definition stateMismatch (s : repository.State) (e : expectedState.t) : Prop :=
  repository.Stable s ≠ expectedState.Stable e
  ∨ repository.Experiment s ≠ expectedState.Experiment e.

(** The [switch request.Method] of [handleRemoteAPIRequest]; [ctx] holds the
    running request state. *)
Definition switchMethod (ctx : context) (request : remoteAPIRequest.t)
  : M (option error) :=
  if decide (remoteAPIRequest.Method request = methodStartExperiment) then
    match unmarshalParams (remoteAPIRequest.Params request) with
    | inl err =>
        ret (Some (wrapError "could not unmarshal start experiment params" err))
    | inr params =>
        let* d := get in
        match getPackage (daemonImpl.catalog d) (remoteAPIRequest.Package request)
                (taskWithVersionParams.Version params) GOARCH GOOS with
        | None =>
            ret (Some (errorString
                   ("could not get package " +:+ remoteAPIRequest.Package request
                    +:+ ", " +:+ taskWithVersionParams.Version params
                    +:+ " for " +:+ GOARCH +:+ ", " +:+ GOOS)))
        | Some experimentPackage =>
            Infof ("Installer: Received remote request "
                   +:+ remoteAPIRequest.ID request
                   +:+ " to start experiment for package "
                   +:+ remoteAPIRequest.Package request
                   +:+ " version " +:+ remoteAPIRequest.Params request) >>
            startExperiment ctx (Package.URL experimentPackage)
        end
    end
  else if decide (remoteAPIRequest.Method request = methodStopExperiment) then
    Infof ("Installer: Received remote request " +:+ remoteAPIRequest.ID request
           +:+ " to stop experiment for package "
           +:+ remoteAPIRequest.Package request) >>
    stopExperiment ctx (remoteAPIRequest.Package request)
  else if decide (remoteAPIRequest.Method request = methodPromoteExperiment) then
    Infof ("Installer: Received remote request " +:+ remoteAPIRequest.ID request
           +:+ " to promote experiment for package "
           +:+ remoteAPIRequest.Package request) >>
    promoteExperiment ctx (remoteAPIRequest.Package request)
  else
    ret (Some (errorString ("unknown method: " +:+ remoteAPIRequest.Method request))).

(** The statements of [handleRemoteAPIRequest] between its last [defer] of
    the prologue and its return, with [defer setRequestDone] run at the
    return.  The result is the named result [err] and the request state
    the context points to. *)
Definition handleRemoteAPIRequest_body (request : remoteAPIRequest.t)
    (state : requestState.t) : M (option error * requestState.t) :=
  let* r := installer_State (remoteAPIRequest.Package request) in
  match r with
  | inl err => ret (Some (wrapError "could not get installer state" err), state)
  | inr s =>
      if decide (stateMismatch s (remoteAPIRequest.ExpectedState request)) then
        Infof ("remote request " +:+ remoteAPIRequest.ID request
               +:+ " not executed as state does not match: expected "
               +:+ expectedState.format (remoteAPIRequest.ExpectedState request)
               +:+ ", got " +:+ repository.format s) >>
        refreshState (Some (setRequestInvalid state)) >>
        ret (None, setRequestInvalid state)
      else
        let* err := switchMethod (Some state) request in
        ret (err, setRequestDone state err)
  end.

(** [handleRemoteAPIRequest].  The deferred calls run in the reverse order
    of their [defer]; a panic of [Done] leaves [Unlock] to run and then
    goes up to the caller. *)
Definition handleRemoteAPIRequest (request : remoteAPIRequest.t)
  : M (completion (option error) * requestState.t) :=
  Lock >>
  refreshState (Some (newRequestContext request)) >>
  let* r := handleRemoteAPIRequest_body request (newRequestContext request) in
  refreshState (Some r.2) >>
  let* ok := requestsWG_Done in
  Unlock >>
  ret (if ok : bool then Returns r.1
       else Panics "sync: negative WaitGroup counter", r.2).

(** *** The background loop of [Start] *)

(** The case a [select] of the loop takes. *)
Inductive selected : Type :=
| SelectTimer
| SelectStop
| SelectRequest.

(** Where the goroutine of the loop is after a run. *)
Inductive loopStatus : Type :=
| LoopSelecting
| LoopReturned
| LoopPanicked (msg : string).

(** The body of [case <-time.After(gcInterval)]. *)
Definition loopTimer : M unit :=
  Lock >>
  let* err := installer_GarbageCollect in
  Unlock >>
  match err with
  | Some e => Errorf ("Daemon: could not run GC: " +:+ Error e)
  | None => ret tt
  end.

(** The body of [case request := <-d.requests]. *)
Definition loopRequest (request : remoteAPIRequest.t)
  : M (completion unit * requestState.t) :=
  let* r := handleRemoteAPIRequest request in
  match r.1 with
  | Returns (Some e) =>
      Errorf ("Daemon: could not handle remote request: " +:+ Error e) >>
      ret (Returns tt, r.2)
  | Returns None => ret (Returns tt, r.2)
  | Panics msg => ret (Panics msg, r.2)
  end.

(** The loop, run along the cases its [select]s take.  A case that is not
    ready (no closed [stopChan], no request in the channel) is not taken.
    The result also lists the final state of the requests handled. *)
Fixpoint dispatchLoop (schedule : list selected)
  : M (loopStatus * list requestState.t) :=
  match schedule with
  | [] => ret (LoopSelecting, [])
  | SelectTimer :: schedule' => loopTimer >> dispatchLoop schedule'
  | SelectStop :: schedule' =>
      let* d := get in
      if daemonImpl.stopChan d then ret (LoopReturned, [])
      else dispatchLoop schedule'
  | SelectRequest :: schedule' =>
      let* d := get in
      match daemonImpl.requests d with
      | [] => dispatchLoop schedule'
      | request :: pending =>
          modify (set_requests pending) >>
          let* r := loopRequest request in
          match r.1 with
          | Returns _ =>
              let* l := dispatchLoop schedule' in
              ret (l.1, r.2 :: l.2)
          | Panics msg => ret (LoopPanicked msg, [r.2])
          end
      end
  end.

(** [Start], but for the goroutine of the loop, which [dispatchLoop] runs. *)
Definition Start : M (option error) :=
  Lock >>
  defer Unlock (
    let* d := get in
    if negb (daemonImpl.remoteUpdates d) then
      Infof "Daemon: Remote updates are disabled" >>
      ret None
    else
      rc_Start >>
      ret None).

(** *** Forms used to state what a run did *)

(** The last event of a refresh: the log line of the failed query, or the
    publication. *)
Definition refreshReport (ctx : context) (d : daemon) : event :=
  match installer.States (daemonImpl.installer d) with
  | inl err => EvErrorf ("could not get installer state: " +:+ Error err)
  | inr state => EvSetState ((λ e, packageState ctx e.1 e.2) <$> map_to_list state)
  end.

(** The remote configuration after a refresh. *)
Definition refreshed (ctx : context) (d : daemon) : remoteConfig.t :=
  match installer.States (daemonImpl.installer d) with
  | inl err => daemonImpl.rc d
  | inr state =>
      remoteConfig.SetState (daemonImpl.rc d)
        ((λ e, packageState ctx e.1 e.2) <$> map_to_list state)
  end.

(** The shape [install], [startExperiment], [promoteExperiment] and
    [stopExperiment] share: refresh, announce, call the installer, report,
    refresh. *)
Definition transition (ctx : context) (start ok prefix : string) (e : event)
    (f : I → I * option error) : M (option error) :=
  refreshState ctx >>
  defer (refreshState ctx) (
    Infof start >>
    let* err := operation e f in
    match err with
    | Some e' => ret (Some (wrapError prefix e'))
    | None => Infof ok >> ret None
    end).

(** *** The goroutines

    The goroutine of the loop and the goroutine that called [Stop], over
    the one daemon.  A critical section of the loop is one step, taken when
    the mutex is free; [m] is true while [Stop] holds the mutex.  No request
    is scheduled and no local call is made from the moment [Stop] is
    called: a sender would add to the wait group, a local caller would wait
    for the mutex. *)

Inductive loopPC : Type :=
| LoopSelect
| LoopTimer
| LoopRequest (request : remoteAPIRequest.t)
| LoopReturn
| LoopPanic (msg : string).

Inductive stopPC : Type :=
| StopCalled
| StopLocked
| StopWaiting
| StopReturned
| StopPanicked (msg : string).

Record system : Type :=
  { shared : daemon;
    m : bool;
    loop : loopPC;
    stop : stopPC;
    handled : list requestState.t;
    events : list event }.

Inductive step : system → system → Prop :=
(** the loop: [case <-time.After(gcInterval)] *)
| step_select_timer s :
    loop s = LoopSelect →
    step s {| shared := shared s; m := m s; loop := LoopTimer; stop := stop s;
              handled := handled s; events := events s |}
(** the loop: [case <-d.stopChan], ready once the channel is closed *)
| step_select_stop s :
    loop s = LoopSelect →
    daemonImpl.stopChan (shared s) = true →
    step s {| shared := shared s; m := m s; loop := LoopReturn; stop := stop s;
              handled := handled s; events := events s |}
(** the loop: [case request := <-d.requests] *)
| step_select_request s request pending :
    loop s = LoopSelect →
    daemonImpl.requests (shared s) = request :: pending →
    step s {| shared := set_requests pending (shared s); m := m s;
              loop := LoopRequest request; stop := stop s;
              handled := handled s; events := events s |}
(** the loop: the garbage collection, under the mutex *)
| step_timer s :
    loop s = LoopTimer →
    m s = false →
    step s {| shared := after (loopTimer (shared s)); m := false;
              loop := LoopSelect; stop := stop s;
              handled := handled s;
              events := events s ++ trace (loopTimer (shared s)) |}
(** the loop: [handleRemoteAPIRequest], under the mutex *)
| step_request s request :
    loop s = LoopRequest request →
    m s = false →
    step s {| shared := after (loopRequest request (shared s)); m := false;
              loop := match (result (loopRequest request (shared s))).1 with
                      | Returns _ => LoopSelect
                      | Panics msg => LoopPanic msg
                      end;
              stop := stop s;
              handled := handled s ++ [(result (loopRequest request (shared s))).2];
              events := events s ++ trace (loopRequest request (shared s)) |}
(** [Stop]: [d.m.Lock()] *)
| step_stop_lock s :
    stop s = StopCalled →
    m s = false →
    step s {| shared := shared s; m := true; loop := loop s; stop := StopLocked;
              handled := handled s; events := events s ++ [EvLock] |}
(** [Stop]: [d.rc.Close()] and [close(d.stopChan)] *)
| step_stop_close s :
    stop s = StopLocked →
    daemonImpl.stopChan (shared s) = false →
    step s {| shared := set_stopChan true (after (rc_Close (shared s)));
              m := m s; loop := loop s; stop := StopWaiting;
              handled := handled s; events := events s ++ [EvRCClose] |}
(** [Stop]: closing a closed channel panics, and the mutex is released *)
| step_stop_close_panic s :
    stop s = StopLocked →
    daemonImpl.stopChan (shared s) = true →
    step s {| shared := after (rc_Close (shared s));
              m := false; loop := loop s;
              stop := StopPanicked "close of closed channel";
              handled := handled s;
              events := events s ++ [EvRCClose; EvUnlock] |}
(** [Stop]: [d.requestsWG.Wait()] returns at counter zero; then [Stop]
    returns and releases the mutex *)
| step_stop_return s :
    stop s = StopWaiting →
    daemonImpl.requestsWG (shared s) = 0%Z →
    step s {| shared := shared s; m := false; loop := loop s;
              stop := StopReturned;
              handled := handled s; events := events s ++ [EvUnlock] |}.

(** [Stop] holds the mutex, before or in [requestsWG.Wait()], while the
    wait group still counts a request. *)
Definition stopHolds (s : system) : Prop :=
  m s = true
  ∧ (0 < daemonImpl.requestsWG (shared s))%Z
  ∧ (stop s = StopWaiting
     ∨ (stop s = StopLocked ∧ daemonImpl.stopChan (shared s) = false)).

(** No goroutine can take a step. *)
Definition stuck (s : system) : Prop := ∀ s', ¬ step s s'.

(** The state of the goroutines when [Stop] is called on daemon [d] while
    the loop is in its [select]. *)
Definition stopCalled (d : daemon) : system :=
  {| shared := d; m := false; loop := LoopSelect; stop := StopCalled;
     handled := []; events := [] |}.

(** The same once [Stop] has taken the mutex. *)
Definition stopLocked (d : daemon) : system :=
  {| shared := d; m := true; loop := LoopSelect; stop := StopLocked;
     handled := []; events := [EvLock] |}.

End Daemon.

Arguments M I C A : clear implicits.
Arguments system I C : clear implicits.

(** ** Properties of traces *)

(** The calls to the installer that a mutating operation consists of: the
    four operations and the query of the state of one package. *)
Definition guarded (e : event) : bool := mutating e || isState e.

(** Every guarded call of the trace has a refresh before it and a refresh
    after it. *)
Definition bracketed (tr : list event) : Prop :=
  ∀ pre e post,
    tr = pre ++ e :: post →
    guarded e = true →
    existsb isRefreshState pre = true ∧ existsb isRefreshState post = true.

(** The same as a check along the trace; [seen] tells whether a refresh was
    seen before. *)
Fixpoint bracketedFrom (seen : bool) (tr : list event) : bool :=
  match tr with
  | [] => true
  | e :: tr' =>
      (if guarded e then seen && existsb isRefreshState tr' else true)
      && bracketedFrom (seen || isRefreshState e) tr'
  end.

(** The mutating operations of the daemon. *)
Inductive mutation : Type :=
| DoInstall (ctx : context) (url : string)
| DoStartExperiment (ctx : context) (url : string)
| DoPromoteExperiment (ctx : context) (pkg : string)
| DoStopExperiment (ctx : context) (pkg : string)
| DoRemoteRequest (request : remoteAPIRequest.t).

Section Mutations.
Context {I C : Type} `{!installer.Installer I} `{!Externals C}.

(** The calls a mutating operation makes. *)
Definition traceOf (op : mutation) (d : daemonImpl.t I C) : list event :=
  match op with
  | DoInstall ctx url => trace (Install ctx url d)
  | DoStartExperiment ctx url => trace (StartExperiment ctx url d)
  | DoPromoteExperiment ctx pkg => trace (PromoteExperiment ctx pkg d)
  | DoStopExperiment ctx pkg => trace (StopExperiment ctx pkg d)
  | DoRemoteRequest request => trace (handleRemoteAPIRequest request d)
  end.

(** A request was applied once: [call] is the one mutating call of the run,
    made on the installer as it was; the handler returns the wrapped error
    of the call; the installer is left as the call left it; the request ends
    DONE when the call succeeded and ERROR, with the translated error, when
    it failed. *)
Definition appliedOnce (request : remoteAPIRequest.t) (d : daemonImpl.t I C)
    (call : event) (f : I → I * option error) (prefix : string) : Prop :=
  List.filter mutating (trace (handleRemoteAPIRequest request d)) = [call]
  ∧ (result (handleRemoteAPIRequest request d)).1
    = Returns (wrapping prefix (f (daemonImpl.installer d)).2)
  ∧ daemonImpl.installer (after (handleRemoteAPIRequest request d))
    = (f (daemonImpl.installer d)).1
  ∧ requestState.State (result (handleRemoteAPIRequest request d)).2
    = match (f (daemonImpl.installer d)).2 with
      | None => pbgo.TaskState_DONE
      | Some _ => pbgo.TaskState_ERROR
      end
  ∧ requestState.Err (result (handleRemoteAPIRequest request d)).2
    = (λ e, From (wrapError prefix e)) <$> (f (daemonImpl.installer d)).2.

End Mutations.

(** ** A host to run the daemon on

    An installer that keeps the installed versions in a map, a catalog that
    is a list of packages, and the other parts the daemon takes from
    outside.  The examples and the counterexamples run on it. *)

Module Fake.

(** The installer: the versions per package, the artifacts it can fetch,
    and the failures to inject into its operations and into its queries. *)
Record t : Type :=
  { packages : gmap string repository.State;
    artifacts : list Package.t;
    failure : option error;
    queryFailure : option error }.

Definition set_packages (m : gmap string repository.State) (i : t) : t :=
  {| packages := m; artifacts := artifacts i;
     failure := failure i; queryFailure := queryFailure i |}.

Definition fetch (i : t) (url : string) : option Package.t :=
  List.find (λ p, bool_decide (Package.URL p = url)) (artifacts i).

Definition Install (i : t) (url : string) : t * option error :=
  match failure i, fetch i url with
  | Some e, _ => (i, Some e)
  | None, None => (i, Some (errorString "could not download package"))
  | None, Some p =>
      (set_packages
         (<[Package.Name p :=
              {| repository.Stable := Package.Version p;
                 repository.Experiment := "" |}]> (packages i)) i,
       None)
  end.

Definition InstallExperiment (i : t) (url : string) : t * option error :=
  match failure i, fetch i url with
  | Some e, _ => (i, Some e)
  | None, None => (i, Some (errorString "could not download package"))
  | None, Some p =>
      match packages i !! Package.Name p with
      | None => (i, Some (errorString "package is not installed"))
      | Some s =>
          (set_packages
             (<[Package.Name p :=
                  {| repository.Stable := repository.Stable s;
                     repository.Experiment := Package.Version p |}]> (packages i)) i,
           None)
      end
  end.

Definition PromoteExperiment (i : t) (pkg : string) : t * option error :=
  match failure i, packages i !! pkg with
  | Some e, _ => (i, Some e)
  | None, None => (i, Some (errorString "package is not installed"))
  | None, Some s =>
      if decide (repository.Experiment s = "") then
        (i, Some (errorString "no experiment to promote"))
      else
        (set_packages
           (<[pkg := {| repository.Stable := repository.Experiment s;
                        repository.Experiment := "" |}]> (packages i)) i,
         None)
  end.

Definition RemoveExperiment (i : t) (pkg : string) : t * option error :=
  match failure i, packages i !! pkg with
  | Some e, _ => (i, Some e)
  | None, None => (i, Some (errorString "package is not installed"))
  | None, Some s =>
      (set_packages
         (<[pkg := {| repository.Stable := repository.Stable s;
                      repository.Experiment := "" |}]> (packages i)) i,
       None)
  end.

Definition GarbageCollect (i : t) : t * option error := (i, failure i).

Definition State (i : t) (pkg : string) : error + repository.State :=
  match queryFailure i with
  | Some e => inl e
  | None =>
      inr (default {| repository.Stable := ""; repository.Experiment := "" |}
             (packages i !! pkg))
  end.

Definition States (i : t) : error + gmap string repository.State :=
  match queryFailure i with
  | Some e => inl e
  | None => inr (packages i)
  end.

#[global] Instance fake_installer : installer.Installer t :=
  {| installer.Install := Install;
     installer.InstallExperiment := InstallExperiment;
     installer.PromoteExperiment := PromoteExperiment;
     installer.RemoveExperiment := RemoveExperiment;
     installer.GarbageCollect := GarbageCollect;
     installer.State := State;
     installer.States := States |}.

(** Modelled from the spec: the catalog and its lookup are declared with
    the remote configuration; the lookup is "resolve(name, version, os, arch) ->
    (Package, found)", a pure lookup by the four keys. *)
Definition catalog : Type := list Package.t.

Definition resolve (c : catalog) (pkg version arch platform : string)
  : option Package.t :=
  List.find
    (λ p, bool_decide (Package.Name p = pkg ∧ Package.Version p = version
                       ∧ Package.Arch p = arch ∧ Package.Platform p = platform))
    c.

(** The decoder of the host takes the payload for the version and rejects
    the empty payload. *)
Definition decodeParams (payload : string) : error + taskWithVersionParams.t :=
  if decide (payload = "") then inl (errorString "unexpected end of JSON input")
  else inr {| taskWithVersionParams.Version := payload |}.

Definition translate (e : error) : installerErrors.InstallerError :=
  {| installerErrors.Code := 1; installerErrors.Error := Error e |}.

#[global] Instance fake_externals : Externals catalog :=
  {| getPackage := resolve;
     emptyCatalog := [];
     GOARCH := "amd64";
     GOOS := "linux";
     methodStartExperiment := "start_experiment";
     methodStopExperiment := "stop_experiment";
     methodPromoteExperiment := "promote_experiment";
     methods_distinct :=
       bool_decide_unpack
         (NoDup ["start_experiment"; "stop_experiment"; "promote_experiment"]) I;
     unmarshalParams := decodeParams;
     From := translate |}.

(** The agent, version 2.0, of the scenarios. *)
Definition agent2 : Package.t :=
  {| Package.Name := "agent"; Package.Version := "2.0";
     Package.Platform := "linux"; Package.Arch := "amd64";
     Package.URL := "u2" |}.

(** An installer with the agent at stable version 1.0, and with the given
    experiment version. *)
Definition agentAt (experiment : string) : t :=
  {| packages := {[ "agent" := {| repository.Stable := "1.0";
                                  repository.Experiment := experiment |} ]};
     artifacts := [agent2];
     failure := None;
     queryFailure := None |}.

(** A started daemon with installer [i] and catalog [c], whose channel
    holds the requests of [queue], each counted in the wait group. *)
Definition daemonWith (i : t) (c : catalog) (queue : list remoteAPIRequest.t)
  : daemonImpl.t t catalog :=
  {| daemonImpl.stopChan := false;
     daemonImpl.installer := i;
     daemonImpl.remoteUpdates := true;
     daemonImpl.rc := {| remoteConfig.started := true;
                         remoteConfig.closed := false;
                         remoteConfig.state := [] |};
     daemonImpl.catalog := c;
     daemonImpl.requests := queue;
     daemonImpl.requestsWG := Z.of_nat (length queue) |}.

(** A remote request on the agent. *)
Definition requestFor (method params stable experiment : string)
  : remoteAPIRequest.t :=
  {| remoteAPIRequest.ID := "task-1";
     remoteAPIRequest.Package := "agent";
     remoteAPIRequest.TraceID := "";
     remoteAPIRequest.ParentSpanID := "";
     remoteAPIRequest.ExpectedState :=
       {| expectedState.Stable := stable; expectedState.Experiment := experiment |};
     remoteAPIRequest.Method := method;
     remoteAPIRequest.Params := params |}.

(** The request of the scenarios: stop the experiment 2.0 of the agent
    whose stable version is 1.0. *)
Definition stopRequest : remoteAPIRequest.t :=
  requestFor "stop_experiment" "" "1.0" "2.0".

(** A request to start the experiment [version] on the agent at 1.0. *)
Definition startRequest (version : string) : remoteAPIRequest.t :=
  requestFor "start_experiment" version "1.0" "".

(** A request with a method the daemon does not know. *)
Definition restartRequest (stable experiment : string) : remoteAPIRequest.t :=
  requestFor "restart" "" stable experiment.

(** The installer whose queries fail. *)
Definition unreachable : t :=
  {| packages := ∅; artifacts := [];
     failure := None;
     queryFailure := Some (errorString "installer not found") |}.

End Fake.

(** ** What a call leaves alone, and what the channel counts *)

Section Frames.
Context {I C : Type}.

(** [d'] has the stop channel, the flag, the catalog and the channel of
    requests of [d]. *)
Definition kept (d d' : daemonImpl.t I C) : Prop :=
  daemonImpl.stopChan d' = daemonImpl.stopChan d
  ∧ daemonImpl.remoteUpdates d' = daemonImpl.remoteUpdates d
  ∧ daemonImpl.catalog d' = daemonImpl.catalog d
  ∧ daemonImpl.requests d' = daemonImpl.requests d.

(** Every request in the channel was added to the wait group. *)
Definition counted (d : daemonImpl.t I C) : Prop :=
  (Z.of_nat (length (daemonImpl.requests d)) ≤ daemonImpl.requestsWG d)%Z.

End Frames.

(** The calls to the installer, operations and queries alike. *)
Definition installerCall (e : event) : bool :=
  match e with
  | EvInstall _ | EvInstallExperiment _ | EvPromoteExperiment _
  | EvRemoveExperiment _ | EvGarbageCollect | EvState _ | EvStates => true
  | _ => false
  end.

(** The calls to the remote configuration. *)
Definition remoteCall (e : event) : bool :=
  match e with
  | EvSetState _ | EvRCStart | EvRCClose => true
  | _ => false
  end.

(** A daemon on the host whose channel of requests is full. *)
Definition fullDaemon : daemonImpl.t Fake.t Fake.catalog :=
  Fake.daemonWith (Fake.agentAt "2.0") [Fake.agent2]
    (replicate requestsCapacity Fake.stopRequest).

(** The installer of the host whose operations fail. *)
Definition failingAgent : Fake.t :=
  {| Fake.packages := Fake.packages (Fake.agentAt "2.0");
     Fake.artifacts := [Fake.agent2];
     Fake.failure := Some (errorString "disk full");
     Fake.queryFailure := None |}.

(** ** Equations of the monad and of the collaborators *)

Section Equations.
Context {I C : Type} `{!installer.Installer I} `{!Externals C}.

Local Abbreviation daemon := (daemonImpl.t I C).

Implicit Types (d : daemon) (ctx : context) (request : remoteAPIRequest.t).

Lemma trace_bind {A B : Type} (m : M I C A) (k : A → M I C B) d :
  trace (bind m k d) = trace (m d) ++ trace (k (result (m d)) (after (m d))).
Proof. reflexivity. Qed.

Lemma result_bind {A B : Type} (m : M I C A) (k : A → M I C B) d :
  result (bind m k d) = result (k (result (m d)) (after (m d))).
Proof. reflexivity. Qed.

Lemma after_bind {A B : Type} (m : M I C A) (k : A → M I C B) d :
  after (bind m k d) = after (k (result (m d)) (after (m d))).
Proof. reflexivity. Qed.

Lemma trace_defer {A : Type} (deferred : M I C unit) (body : M I C A) d :
  trace (defer deferred body d) = trace (body d) ++ trace (deferred (after (body d))).
Proof. unfold defer. rewrite trace_bind. cbn. by rewrite app_nil_r. Qed.

Lemma result_defer {A : Type} (deferred : M I C unit) (body : M I C A) d :
  result (defer deferred body d) = result (body d).
Proof. reflexivity. Qed.

Lemma after_defer {A : Type} (deferred : M I C unit) (body : M I C A) d :
  after (defer deferred body d) = after (deferred (after (body d))).
Proof. reflexivity. Qed.

Lemma trace_ret {A : Type} (a : A) d : trace (ret a d) = [].
Proof. reflexivity. Qed.
Lemma result_ret {A : Type} (a : A) d : result (ret a d) = a.
Proof. reflexivity. Qed.
Lemma after_ret {A : Type} (a : A) d : after (ret a d) = d.
Proof. reflexivity. Qed.

Lemma trace_get d : trace (get d) = [].
Proof. reflexivity. Qed.
Lemma result_get d : result (get d) = d.
Proof. reflexivity. Qed.
Lemma after_get d : after (get d) = d.
Proof. reflexivity. Qed.

Lemma trace_modify f d : trace (modify f d) = [].
Proof. reflexivity. Qed.
Lemma after_modify f d : after (modify f d) = f d.
Proof. reflexivity. Qed.

Lemma trace_emit e d : trace (emit e d) = [e].
Proof. reflexivity. Qed.
Lemma after_emit e d : after (emit e d) = d.
Proof. reflexivity. Qed.

Lemma trace_operation e f d : trace (operation e f d) = [e].
Proof. reflexivity. Qed.
Lemma result_operation e f d :
  result (operation e f d) = (f (daemonImpl.installer d)).2.
Proof. reflexivity. Qed.
Lemma after_operation e f d :
  after (operation e f d) = set_installer (f (daemonImpl.installer d)).1 d.
Proof. reflexivity. Qed.

Lemma trace_installer_State pkg d : trace (installer_State pkg d) = [EvState pkg].
Proof. reflexivity. Qed.
Lemma result_installer_State pkg d :
  result (installer_State pkg d) = installer.State (daemonImpl.installer d) pkg.
Proof. reflexivity. Qed.
Lemma after_installer_State pkg d : after (installer_State pkg d) = d.
Proof. reflexivity. Qed.

Lemma set_rc_same d : set_rc (daemonImpl.rc d) d = d.
Proof. by destruct d. Qed.

Lemma trace_refreshState ctx d :
  trace (refreshState ctx d) = [EvRefreshState; EvStates; refreshReport ctx d].
Proof.
  unfold refreshState, refreshReport.
  rewrite trace_bind, trace_emit, after_emit, trace_bind.
  unfold installer_States at 1 2; cbn [trace result after].
  by destruct (installer.States (daemonImpl.installer d)).
Qed.

Lemma after_refreshState ctx d :
  after (refreshState ctx d) = set_rc (refreshed ctx d) d.
Proof.
  unfold refreshState, refreshed.
  rewrite after_bind, after_emit, after_bind.
  unfold installer_States; cbn [trace result after].
  destruct (installer.States (daemonImpl.installer d)); [|done].
  by rewrite set_rc_same.
Qed.

Lemma installer_set_rc r d :
  daemonImpl.installer (set_rc r d) = daemonImpl.installer d.
Proof. reflexivity. Qed.
Lemma catalog_set_rc r d :
  daemonImpl.catalog (set_rc r d) = daemonImpl.catalog d.
Proof. reflexivity. Qed.
Lemma requestsWG_set_rc r d :
  daemonImpl.requestsWG (set_rc r d) = daemonImpl.requestsWG d.
Proof. reflexivity. Qed.
Lemma installer_set_installer i d :
  daemonImpl.installer (set_installer i d) = i.
Proof. reflexivity. Qed.
Lemma catalog_set_installer i d :
  daemonImpl.catalog (set_installer i d) = daemonImpl.catalog d.
Proof. reflexivity. Qed.
Lemma requestsWG_set_installer i d :
  daemonImpl.requestsWG (set_installer i d) = daemonImpl.requestsWG d.
Proof. reflexivity. Qed.
Lemma installer_set_requests q d :
  daemonImpl.installer (set_requests q d) = daemonImpl.installer d.
Proof. reflexivity. Qed.
Lemma installer_set_requestsWG n d :
  daemonImpl.installer (set_requestsWG n d) = daemonImpl.installer d.
Proof. reflexivity. Qed.
Lemma requestsWG_set_requestsWG n d :
  daemonImpl.requestsWG (set_requestsWG n d) = n.
Proof. reflexivity. Qed.

Lemma mutating_refreshReport ctx d : mutating (refreshReport ctx d) = false.
Proof. unfold refreshReport. by case_match. Qed.
Lemma isState_refreshReport ctx d : isState (refreshReport ctx d) = false.
Proof. unfold refreshReport. by case_match. Qed.
Lemma isRefreshState_refreshReport ctx d :
  isRefreshState (refreshReport ctx d) = false.
Proof. unfold refreshReport. by case_match. Qed.

End Equations.

Create Rewrite HintDb daemon.

#[local] Hint Rewrite @trace_bind @result_bind @after_bind
  @trace_defer @result_defer @after_defer
  @trace_ret @result_ret @after_ret
  @trace_get @result_get @after_get
  @trace_modify @after_modify @trace_emit @after_emit
  @trace_operation @result_operation @after_operation
  @trace_installer_State @result_installer_State @after_installer_State
  @trace_refreshState @after_refreshState
  @installer_set_rc @catalog_set_rc @requestsWG_set_rc
  @installer_set_installer @catalog_set_installer @requestsWG_set_installer
  @installer_set_requests @installer_set_requestsWG @requestsWG_set_requestsWG
  @mutating_refreshReport @isState_refreshReport @isRefreshState_refreshReport
  : daemon.

Section Properties.
Context {I C : Type} `{!installer.Installer I} `{!Externals C}.

Local Abbreviation daemon := (daemonImpl.t I C).

Implicit Types (d : daemon) (ctx : context) (request : remoteAPIRequest.t).

(** Normal forms are reached by rewriting with the equations and by cases
    on what the collaborators return. *)
Ltac run := repeat (progress (autorewrite with daemon; cbn [app]) || case_match).

Lemma install_transition ctx url d :
  install ctx url d =
  transition ctx ("Daemon: Installing package from " +:+ url)
    ("Daemon: Successfully installed package from " +:+ url)
    "could not install" (EvInstall url) (λ i, installer.Install i url) d.
Proof. reflexivity. Qed.

Lemma startExperiment_transition ctx url d :
  startExperiment ctx url d =
  transition ctx ("Daemon: Starting experiment for package from " +:+ url)
    ("Daemon: Successfully started experiment for package from " +:+ url)
    "could not install experiment" (EvInstallExperiment url)
    (λ i, installer.InstallExperiment i url) d.
Proof. reflexivity. Qed.

Lemma promoteExperiment_transition ctx pkg d :
  promoteExperiment ctx pkg d =
  transition ctx ("Daemon: Promoting experiment for package " +:+ pkg)
    ("Daemon: Successfully promoted experiment for package " +:+ pkg)
    "could not promote experiment" (EvPromoteExperiment pkg)
    (λ i, installer.PromoteExperiment i pkg) d.
Proof. reflexivity. Qed.

Lemma stopExperiment_transition ctx pkg d :
  stopExperiment ctx pkg d =
  transition ctx ("Daemon: Stopping experiment for package " +:+ pkg)
    ("Daemon: Successfully stopped experiment for package " +:+ pkg)
    "could not stop experiment" (EvRemoveExperiment pkg)
    (λ i, installer.RemoveExperiment i pkg) d.
Proof. reflexivity. Qed.

Lemma trace_transition ctx start ok prefix e f d :
  trace (transition ctx start ok prefix e f d) =
  [EvRefreshState; EvStates; refreshReport ctx d; EvInfof start; e]
  ++ match (f (daemonImpl.installer d)).2 with
     | Some _ => []
     | None => [EvInfof ok]
     end
  ++ [EvRefreshState; EvStates;
      refreshReport ctx
        (set_installer (f (daemonImpl.installer d)).1 (set_rc (refreshed ctx d) d))].
Proof. unfold transition, Infof. by run. Qed.

Lemma result_transition ctx start ok prefix e f d :
  result (transition ctx start ok prefix e f d) =
  wrapping prefix (f (daemonImpl.installer d)).2.
Proof. unfold transition, Infof, wrapping. by run. Qed.

Lemma after_transition ctx start ok prefix e f d :
  after (transition ctx start ok prefix e f d) =
  set_rc (refreshed ctx
            (set_installer (f (daemonImpl.installer d)).1 (set_rc (refreshed ctx d) d)))
    (set_installer (f (daemonImpl.installer d)).1 (set_rc (refreshed ctx d) d)).
Proof. unfold transition, Infof. by run. Qed.

(** *** The request handler, by cases *)

Lemma outcome_eq {A : Type} (o : outcome daemon A) r a t :
  result o = r → after o = a → trace o = t →
  o = {| result := r; after := a; trace := t |}.
Proof. destruct o; cbn; congruence. Qed.

(** The daemon and the request state that the body of the handler starts
    from. *)
Local Abbreviation entered request d :=
  (set_rc (refreshed (Some (newRequestContext request)) d) d).
Local Abbreviation bodyOf request d :=
  (handleRemoteAPIRequest_body request (newRequestContext request)
     (entered request d)).

Lemma trace_handleRemoteAPIRequest request d :
  trace (handleRemoteAPIRequest request d) =
  [EvLock; EvRefreshState; EvStates;
   refreshReport (Some (newRequestContext request)) d]
  ++ trace (bodyOf request d)
  ++ [EvRefreshState; EvStates;
      refreshReport (Some (result (bodyOf request d)).2) (after (bodyOf request d));
      EvUnlock].
Proof.
  unfold handleRemoteAPIRequest, requestsWG_Done, Lock, Unlock.
  autorewrite with daemon. by cbn [app].
Qed.

Lemma result_handleRemoteAPIRequest request d :
  result (handleRemoteAPIRequest request d) =
  (if bool_decide (0 ≤ daemonImpl.requestsWG (after (bodyOf request d)) - 1)%Z
   then Returns (result (bodyOf request d)).1
   else Panics "sync: negative WaitGroup counter",
   (result (bodyOf request d)).2).
Proof.
  unfold handleRemoteAPIRequest, requestsWG_Done, Lock, Unlock.
  by autorewrite with daemon.
Qed.

Lemma installer_after_handleRemoteAPIRequest request d :
  daemonImpl.installer (after (handleRemoteAPIRequest request d)) =
  daemonImpl.installer (after (bodyOf request d)).
Proof.
  unfold handleRemoteAPIRequest, requestsWG_Done, Lock, Unlock.
  by autorewrite with daemon.
Qed.

Lemma body_query_failure request state d err :
  installer.State (daemonImpl.installer d) (remoteAPIRequest.Package request)
  = inl err →
  handleRemoteAPIRequest_body request state d =
  {| result := (Some (wrapError "could not get installer state" err), state);
     after := d;
     trace := [EvState (remoteAPIRequest.Package request)] |}.
Proof.
  intros HS. unfold handleRemoteAPIRequest_body.
  apply outcome_eq; autorewrite with daemon; rewrite HS; by autorewrite with daemon.
Qed.

Lemma body_mismatch request state d s :
  installer.State (daemonImpl.installer d) (remoteAPIRequest.Package request)
  = inr s →
  stateMismatch s (remoteAPIRequest.ExpectedState request) →
  handleRemoteAPIRequest_body request state d =
  {| result := (None, setRequestInvalid state);
     after := set_rc (refreshed (Some (setRequestInvalid state)) d) d;
     trace := [EvState (remoteAPIRequest.Package request);
               EvInfof ("remote request " +:+ remoteAPIRequest.ID request
                        +:+ " not executed as state does not match: expected "
                        +:+ expectedState.format (remoteAPIRequest.ExpectedState request)
                        +:+ ", got " +:+ repository.format s);
               EvRefreshState; EvStates;
               refreshReport (Some (setRequestInvalid state)) d] |}.
Proof.
  intros HS Hne. unfold handleRemoteAPIRequest_body, Infof.
  apply outcome_eq; autorewrite with daemon; rewrite HS;
    (destruct (decide _); [|done]); by autorewrite with daemon.
Qed.

Lemma body_match request state d s :
  installer.State (daemonImpl.installer d) (remoteAPIRequest.Package request)
  = inr s →
  ¬ stateMismatch s (remoteAPIRequest.ExpectedState request) →
  handleRemoteAPIRequest_body request state d =
  {| result := (result (switchMethod (Some state) request d),
                setRequestDone state (result (switchMethod (Some state) request d)));
     after := after (switchMethod (Some state) request d);
     trace := EvState (remoteAPIRequest.Package request)
              :: trace (switchMethod (Some state) request d) |}.
Proof.
  intros HS Hne. unfold handleRemoteAPIRequest_body.
  apply outcome_eq; autorewrite with daemon; rewrite HS;
    (destruct (decide _); [done|]); autorewrite with daemon; try done.
  by rewrite app_nil_r.
Qed.

(** The switch, by cases. *)

Lemma switchMethod_undecoded ctx request d err :
  remoteAPIRequest.Method request = methodStartExperiment →
  unmarshalParams (remoteAPIRequest.Params request) = inl err →
  switchMethod ctx request d =
  {| result := Some (wrapError "could not unmarshal start experiment params" err);
     after := d; trace := [] |}.
Proof.
  intros HM HU. unfold switchMethod.
  rewrite decide_True by done. by rewrite HU.
Qed.

Lemma switchMethod_unresolved ctx request d params :
  remoteAPIRequest.Method request = methodStartExperiment →
  unmarshalParams (remoteAPIRequest.Params request) = inr params →
  getPackage (daemonImpl.catalog d) (remoteAPIRequest.Package request)
    (taskWithVersionParams.Version params) GOARCH GOOS = None →
  switchMethod ctx request d =
  {| result := Some (errorString
                 ("could not get package " +:+ remoteAPIRequest.Package request
                  +:+ ", " +:+ taskWithVersionParams.Version params
                  +:+ " for " +:+ GOARCH +:+ ", " +:+ GOOS));
     after := d; trace := [] |}.
Proof.
  intros HM HU HP. unfold switchMethod.
  rewrite decide_True by done. rewrite HU.
  apply outcome_eq; autorewrite with daemon; rewrite HP; by autorewrite with daemon.
Qed.

Lemma switchMethod_start ctx request d params p :
  remoteAPIRequest.Method request = methodStartExperiment →
  unmarshalParams (remoteAPIRequest.Params request) = inr params →
  getPackage (daemonImpl.catalog d) (remoteAPIRequest.Package request)
    (taskWithVersionParams.Version params) GOARCH GOOS = Some p →
  switchMethod ctx request d =
  bind (Infof ("Installer: Received remote request "
               +:+ remoteAPIRequest.ID request
               +:+ " to start experiment for package "
               +:+ remoteAPIRequest.Package request
               +:+ " version " +:+ remoteAPIRequest.Params request))
    (λ _, startExperiment ctx (Package.URL p)) d.
Proof.
  intros HM HU HP. unfold switchMethod.
  rewrite decide_True by done. rewrite HU.
  unfold bind at 1, get; cbn [result after trace app]. rewrite HP.
  by destruct (bind _ _ d).
Qed.

Lemma methodStop_not_start :
  methodStopExperiment ≠ methodStartExperiment.
Proof.
  pose proof methods_distinct as Hd.
  apply NoDup_cons_1_1 in Hd. set_solver.
Qed.

Lemma methodPromote_not_start :
  methodPromoteExperiment ≠ methodStartExperiment.
Proof.
  pose proof methods_distinct as Hd.
  apply NoDup_cons_1_1 in Hd. set_solver.
Qed.

Lemma methodPromote_not_stop :
  methodPromoteExperiment ≠ methodStopExperiment.
Proof.
  pose proof methods_distinct as Hd.
  apply NoDup_cons_1_2, NoDup_cons_1_1 in Hd. set_solver.
Qed.

Lemma switchMethod_stop ctx request d :
  remoteAPIRequest.Method request = methodStopExperiment →
  switchMethod ctx request d =
  bind (Infof ("Installer: Received remote request " +:+ remoteAPIRequest.ID request
               +:+ " to stop experiment for package "
               +:+ remoteAPIRequest.Package request))
    (λ _, stopExperiment ctx (remoteAPIRequest.Package request)) d.
Proof.
  intros HM. unfold switchMethod. rewrite HM.
  rewrite decide_False by apply methodStop_not_start.
  by rewrite decide_True.
Qed.

Lemma switchMethod_promote ctx request d :
  remoteAPIRequest.Method request = methodPromoteExperiment →
  switchMethod ctx request d =
  bind (Infof ("Installer: Received remote request " +:+ remoteAPIRequest.ID request
               +:+ " to promote experiment for package "
               +:+ remoteAPIRequest.Package request))
    (λ _, promoteExperiment ctx (remoteAPIRequest.Package request)) d.
Proof.
  intros HM. unfold switchMethod. rewrite HM.
  rewrite decide_False by apply methodPromote_not_start.
  rewrite decide_False by apply methodPromote_not_stop.
  by rewrite decide_True.
Qed.

Lemma switchMethod_unknown ctx request d :
  remoteAPIRequest.Method request ≠ methodStartExperiment →
  remoteAPIRequest.Method request ≠ methodStopExperiment →
  remoteAPIRequest.Method request ≠ methodPromoteExperiment →
  switchMethod ctx request d =
  {| result := Some (errorString ("unknown method: "
                                  +:+ remoteAPIRequest.Method request));
     after := d; trace := [] |}.
Proof.
  intros H1 H2 H3. unfold switchMethod.
  by rewrite !decide_False by done.
Qed.

(** The counter of the wait group is the handler's to change. *)
Lemma requestsWG_after_transition ctx start ok prefix e f d :
  daemonImpl.requestsWG (after (transition ctx start ok prefix e f d))
  = daemonImpl.requestsWG d.
Proof. rewrite after_transition. by autorewrite with daemon. Qed.

Lemma installer_after_transition ctx start ok prefix e f d :
  daemonImpl.installer (after (transition ctx start ok prefix e f d))
  = (f (daemonImpl.installer d)).1.
Proof. rewrite after_transition. by autorewrite with daemon. Qed.

Lemma requestsWG_after_switchMethod ctx request d :
  daemonImpl.requestsWG (after (switchMethod ctx request d))
  = daemonImpl.requestsWG d.
Proof.
  unfold switchMethod, Infof.
  run; try done;
    rewrite ?startExperiment_transition, ?stopExperiment_transition,
      ?promoteExperiment_transition; by rewrite requestsWG_after_transition.
Qed.

Lemma requestsWG_after_body request state d :
  daemonImpl.requestsWG (after (handleRemoteAPIRequest_body request state d))
  = daemonImpl.requestsWG d.
Proof.
  unfold handleRemoteAPIRequest_body, Infof.
  run; try done.
  by rewrite requestsWG_after_switchMethod.
Qed.

(** A request that was counted when it was scheduled does not make [Done]
    panic. *)
Lemma handleRemoteAPIRequest_returns request d :
  (0 < daemonImpl.requestsWG d)%Z →
  (result (handleRemoteAPIRequest request d)).1
  = Returns (result (bodyOf request d)).1.
Proof.
  intros HWG. rewrite result_handleRemoteAPIRequest. cbn [fst].
  rewrite requestsWG_after_body. autorewrite with daemon.
  rewrite bool_decide_true; [done|lia].
Qed.

(** What [appliedOnce] asks for holds as soon as the switch of the request
    comes down to one transition. *)
Lemma appliedOnce_transition request d s msg start ok prefix e f :
  (0 < daemonImpl.requestsWG d)%Z →
  installer.State (daemonImpl.installer d) (remoteAPIRequest.Package request) = inr s →
  ¬ stateMismatch s (remoteAPIRequest.ExpectedState request) →
  mutating e = true →
  switchMethod (Some (newRequestContext request)) request (entered request d)
  = bind (Infof msg)
      (λ _, transition (Some (newRequestContext request)) start ok prefix e f)
      (entered request d) →
  appliedOnce request d e f prefix.
Proof.
  intros HWG HS Hne He Hsw. unfold appliedOnce.
  rewrite handleRemoteAPIRequest_returns by done.
  rewrite trace_handleRemoteAPIRequest, result_handleRemoteAPIRequest,
    installer_after_handleRemoteAPIRequest.
  rewrite (body_match _ _ _ s) by (by autorewrite with daemon).
  rewrite Hsw. unfold Infof. cbn [result after trace fst snd].
  autorewrite with daemon.
  rewrite trace_transition, result_transition, after_transition.
  autorewrite with daemon.
  destruct (f (daemonImpl.installer d)) as [i' [err|]];
    cbn [fst snd app List.filter mutating wrapping fmap option_fmap option_map
         setRequestDone requestState.State requestState.Err];
    autorewrite with daemon; by rewrite He.
Qed.

(** The check along the trace is sound. *)
Lemma bracketedFrom_sound_from tr : ∀ pre0,
  bracketedFrom (existsb isRefreshState pre0) tr = true →
  ∀ pre e post,
    tr = pre ++ e :: post →
    guarded e = true →
    existsb isRefreshState (pre0 ++ pre) = true
    ∧ existsb isRefreshState post = true.
Proof.
  induction tr as [|x tr IH]; intros pre0 Hb pre e post Heq He.
  - by destruct pre.
  - cbn [bracketedFrom] in Hb. apply andb_prop in Hb as [Hx Hb].
    destruct pre as [|y pre]; cbn [app] in Heq; injection Heq as -> ->.
    + rewrite He in Hx. apply andb_prop in Hx as [Hseen Hpost].
      by rewrite app_nil_r.
    + assert (existsb isRefreshState pre0 || isRefreshState y
              = existsb isRefreshState (pre0 ++ [y])) as Hseen.
      { rewrite existsb_app. cbn [existsb]. by rewrite orb_false_r. }
      rewrite Hseen in Hb.
      destruct (IH (pre0 ++ [y]) Hb pre e post eq_refl He) as [H1 H2].
      by rewrite <- app_assoc in H1.
Qed.

Lemma bracketedFrom_sound tr : bracketedFrom false tr = true → bracketed tr.
Proof.
  intros Hb pre e post Heq He.
  by apply (bracketedFrom_sound_from tr [] Hb pre e post).
Qed.

(** The check, run on a trace whose refresh reports are not known. *)
Ltac check_trace :=
  repeat (progress (cbn [app bracketedFrom mutating isState isRefreshState
                         existsb orb andb];
                    unfold guarded; autorewrite with daemon)).
Ltac check_bracketed := apply bracketedFrom_sound; check_trace; try reflexivity.

Lemma trace_locked_transition ctx start ok prefix e f d :
  trace (bind Lock (λ _, defer Unlock (transition ctx start ok prefix e f)) d) =
  [EvLock; EvRefreshState; EvStates; refreshReport ctx d; EvInfof start; e]
  ++ match (f (daemonImpl.installer d)).2 with
     | Some _ => []
     | None => [EvInfof ok]
     end
  ++ [EvRefreshState; EvStates;
      refreshReport ctx
        (set_installer (f (daemonImpl.installer d)).1 (set_rc (refreshed ctx d) d));
      EvUnlock].
Proof.
  unfold Lock, Unlock. autorewrite with daemon. rewrite trace_transition.
  autorewrite with daemon. cbn [app]. by case_match.
Qed.

Lemma bracketed_locked_transition ctx start ok prefix e f d :
  mutating e = true →
  bracketed
    (trace (bind Lock (λ _, defer Unlock (transition ctx start ok prefix e f)) d)).
Proof.
  intros He. rewrite trace_locked_transition.
  assert (isRefreshState e = false) as He' by (by destruct e).
  case_match; apply bracketedFrom_sound;
    repeat (progress (check_trace; rewrite ?He, ?He')); done.
Qed.

Lemma filter_guarded_nonempty pre e post :
  guarded e = true → List.filter guarded (pre ++ e :: post) ≠ [].
Proof.
  intros He. rewrite List.filter_app. cbn [List.filter]. rewrite He.
  by destruct (List.filter guarded pre).
Qed.

Lemma guarded_locked_transition ctx start ok prefix e f d :
  mutating e = true →
  List.filter guarded
    (trace (bind Lock (λ _, defer Unlock (transition ctx start ok prefix e f)) d))
  ≠ [].
Proof.
  intros He. rewrite trace_locked_transition.
  apply (filter_guarded_nonempty [_; _; _; _; _] e).
  unfold guarded. by rewrite He.
Qed.

Lemma bracketed_handleRemoteAPIRequest request d :
  bracketed (trace (handleRemoteAPIRequest request d)).
Proof.
  rewrite trace_handleRemoteAPIRequest.
  unfold handleRemoteAPIRequest_body, switchMethod, Infof.
  run;
    rewrite ?startExperiment_transition, ?stopExperiment_transition,
      ?promoteExperiment_transition, ?trace_transition;
    try case_match; by check_bracketed.
Qed.

(** ** The claims *)

(** C5. When the installer's [States()] query fails, [refreshState] returns
    with the daemon as it was, without a call to [SetState] (the failure is
    logged), and its caller gets no error: the function has no result. *)
Theorem refreshState_query_failure ctx d err :
  installer.States (daemonImpl.installer d) = inl err →
  refreshState ctx d
  = {| result := tt; after := d;
       trace := [EvRefreshState; EvStates;
                 EvErrorf ("could not get installer state: " +:+ Error err)] |}
  ∧ List.filter isSetState (trace (refreshState ctx d)) = [].
Proof.
  intros HS.
  assert (refreshState ctx d
          = {| result := tt; after := d;
               trace := [EvRefreshState; EvStates;
                         EvErrorf ("could not get installer state: " +:+ Error err)] |})
    as ->; [|done].
  unfold refreshState, bind, emit, installer_States, Errorf; cbn [result after trace].
  by rewrite HS.
Qed.

(** C6. [handleCatalogUpdate c] puts [c] in the place of the catalog,
    whatever the catalog was, returns nil, and leaves the other fields of
    the daemon as they were. *)
Theorem handleCatalogUpdate_replaces (c : C) d :
  result (handleCatalogUpdate c d) = None
  ∧ after (handleCatalogUpdate c d) = set_catalog c d
  ∧ daemonImpl.catalog (after (handleCatalogUpdate c d)) = c
  ∧ daemonImpl.installer (after (handleCatalogUpdate c d)) = daemonImpl.installer d
  ∧ daemonImpl.requests (after (handleCatalogUpdate c d)) = daemonImpl.requests d
  ∧ daemonImpl.stopChan (after (handleCatalogUpdate c d)) = daemonImpl.stopChan d
  ∧ daemonImpl.remoteUpdates (after (handleCatalogUpdate c d))
    = daemonImpl.remoteUpdates d
  ∧ daemonImpl.rc (after (handleCatalogUpdate c d)) = daemonImpl.rc d
  ∧ daemonImpl.requestsWG (after (handleCatalogUpdate c d)) = daemonImpl.requestsWG d
  ∧ List.filter (λ e, guarded e || isSetState e) (trace (handleCatalogUpdate c d)) = [].
Proof. by repeat split. Qed.

(** C7. [GetPackage(name, version)] returns what the lookup in the catalog
    gives for the name and the version on [GOARCH] and [GOOS]: the package
    when there is one, an error exactly when there is none.  It leaves the
    daemon as it was and calls neither the installer nor the remote
    configuration. *)
Theorem GetPackage_lookup (pkg version : string) d :
  result (GetPackage pkg version d)
  = match getPackage (daemonImpl.catalog d) pkg version GOARCH GOOS with
    | Some catalogPackage => inr catalogPackage
    | None =>
        inl (errorString ("could not get package " +:+ pkg +:+ ", " +:+ version
                          +:+ " for " +:+ GOARCH +:+ ", " +:+ GOOS))
    end
  ∧ ((∃ err, result (GetPackage pkg version d) = inl err)
     ↔ getPackage (daemonImpl.catalog d) pkg version GOARCH GOOS = None)
  ∧ after (GetPackage pkg version d) = d
  ∧ trace (GetPackage pkg version d) = [EvLock; EvUnlock].
Proof.
  unfold GetPackage, Lock, Unlock. run; repeat split; try done.
  - by intros [? ?].
  - by eexists.
Qed.

Lemma trace_Install ctx url d :
  trace (Install ctx url d) =
  [EvLock; EvRefreshState; EvStates; refreshReport ctx d;
   EvInfof ("Daemon: Installing package from " +:+ url); EvInstall url]
  ++ match (installer.Install (daemonImpl.installer d) url).2 with
     | Some _ => []
     | None => [EvInfof ("Daemon: Successfully installed package from " +:+ url)]
     end
  ++ [EvRefreshState; EvStates;
      refreshReport ctx
        (set_installer (installer.Install (daemonImpl.installer d) url).1
           (set_rc (refreshed ctx d) d));
      EvUnlock].
Proof.
  unfold Install, Lock, Unlock.
  autorewrite with daemon. rewrite install_transition, trace_transition.
  autorewrite with daemon. cbn [app]. by case_match.
Qed.

(** C9. [Install(ctx, url)] checks no expected state: it does not ask for
    the state of a package, and it calls the installer's [Install] with the
    URL, once, whatever the daemon and the installer are.  It returns nil
    when that call succeeds and its error, wrapped as "could not install",
    when it fails; the installer is left as the call left it. *)
Theorem Install_unconditional ctx url d :
  List.filter guarded (trace (Install ctx url d)) = [EvInstall url]
  ∧ result (Install ctx url d)
    = match (installer.Install (daemonImpl.installer d) url).2 with
      | None => None
      | Some err => Some (wrapError "could not install" err)
      end
  ∧ daemonImpl.installer (after (Install ctx url d))
    = (installer.Install (daemonImpl.installer d) url).1.
Proof.
  split; [|split].
  - rewrite trace_Install. unfold guarded.
    case_match; cbn [app List.filter mutating isState orb];
      by autorewrite with daemon.
  - unfold Install, Lock, Unlock. autorewrite with daemon.
    rewrite install_transition, result_transition. unfold wrapping.
    by case_match.
  - unfold Install, Lock, Unlock. autorewrite with daemon.
    rewrite install_transition, after_transition. by autorewrite with daemon.
Qed.

(** C1. When the state that the installer reports for the package of a
    request differs from the expected state of the request, in the stable
    or in the experiment version, [handleRemoteAPIRequest] calls none of
    [Install], [InstallExperiment], [PromoteExperiment] and
    [RemoveExperiment], leaves the request INVALID_STATE, and returns nil.
    The request is one that was counted in the wait group when it was
    scheduled. *)
Theorem handleRemoteAPIRequest_mismatch request d s :
  (0 < daemonImpl.requestsWG d)%Z →
  installer.State (daemonImpl.installer d) (remoteAPIRequest.Package request) = inr s →
  stateMismatch s (remoteAPIRequest.ExpectedState request) →
  List.filter mutating (trace (handleRemoteAPIRequest request d)) = []
  ∧ requestState.State (result (handleRemoteAPIRequest request d)).2
    = pbgo.TaskState_INVALID_STATE
  ∧ (result (handleRemoteAPIRequest request d)).1 = Returns None
  ∧ daemonImpl.installer (after (handleRemoteAPIRequest request d))
    = daemonImpl.installer d.
Proof.
  intros HWG HS Hne.
  rewrite handleRemoteAPIRequest_returns by done.
  rewrite trace_handleRemoteAPIRequest, result_handleRemoteAPIRequest,
    installer_after_handleRemoteAPIRequest.
  rewrite (body_mismatch _ _ _ s) by (by autorewrite with daemon).
  cbn [result after trace fst snd app List.filter mutating].
  by autorewrite with daemon.
Qed.

(** C2, as amended.  Take a request whose expected state is the state the
    installer reports.  When its method is the one to stop or to promote an
    experiment, or the one to start an experiment with parameters that
    decode and a version that the catalog has for the package on this
    platform, the handler makes one mutating call to the installer, the
    one the method stands for ([RemoveExperiment], [PromoteExperiment],
    [InstallExperiment] on the URL of the catalog), and the request ends
    DONE when the call succeeds and ERROR, with the translated error, when
    it fails. *)
Theorem handleRemoteAPIRequest_applies request d s :
  (0 < daemonImpl.requestsWG d)%Z →
  installer.State (daemonImpl.installer d) (remoteAPIRequest.Package request) = inr s →
  ¬ stateMismatch s (remoteAPIRequest.ExpectedState request) →
  (remoteAPIRequest.Method request = methodStopExperiment →
   appliedOnce request d
     (EvRemoveExperiment (remoteAPIRequest.Package request))
     (λ i, installer.RemoveExperiment i (remoteAPIRequest.Package request))
     "could not stop experiment")
  ∧ (remoteAPIRequest.Method request = methodPromoteExperiment →
     appliedOnce request d
       (EvPromoteExperiment (remoteAPIRequest.Package request))
       (λ i, installer.PromoteExperiment i (remoteAPIRequest.Package request))
       "could not promote experiment")
  ∧ (∀ params p,
       remoteAPIRequest.Method request = methodStartExperiment →
       unmarshalParams (remoteAPIRequest.Params request) = inr params →
       getPackage (daemonImpl.catalog d) (remoteAPIRequest.Package request)
         (taskWithVersionParams.Version params) GOARCH GOOS = Some p →
       appliedOnce request d
         (EvInstallExperiment (Package.URL p))
         (λ i, installer.InstallExperiment i (Package.URL p))
         "could not install experiment").
Proof.
  intros HWG HS Hne. split; [|split].
  - intros HM. eapply appliedOnce_transition; [done..|].
    rewrite switchMethod_stop by done. reflexivity.
  - intros HM. eapply appliedOnce_transition; [done..|].
    rewrite switchMethod_promote by done. reflexivity.
  - intros params p HM HU HP. eapply appliedOnce_transition; [done..|].
    erewrite switchMethod_start by (by autorewrite with daemon). reflexivity.
Qed.

(** C3. Each mutating operation ([Install], [StartExperiment],
    [PromoteExperiment], [StopExperiment], the handling of a remote
    request) calls the installer, and each of its calls to the installer
    (the four operations, and the query of the state of the package of a
    request) has an entry into [refreshState] before it and one after it,
    whether the call fails or not. *)
Theorem refreshState_brackets (op : mutation) d :
  bracketed (traceOf op d)
  ∧ List.filter guarded (traceOf op d) ≠ [].
Proof.
  split.
  - destruct op as [ctx url|ctx url|ctx pkg|ctx pkg|request]; cbn [traceOf].
    + unfold Install. by apply bracketed_locked_transition.
    + unfold StartExperiment. by apply bracketed_locked_transition.
    + unfold PromoteExperiment. by apply bracketed_locked_transition.
    + unfold StopExperiment. by apply bracketed_locked_transition.
    + apply bracketed_handleRemoteAPIRequest.
  - destruct op as [ctx url|ctx url|ctx pkg|ctx pkg|request]; cbn [traceOf].
    + unfold Install. by apply guarded_locked_transition.
    + unfold StartExperiment. by apply guarded_locked_transition.
    + unfold PromoteExperiment. by apply guarded_locked_transition.
    + unfold StopExperiment. by apply guarded_locked_transition.
    + rewrite trace_handleRemoteAPIRequest.
      unfold handleRemoteAPIRequest_body. autorewrite with daemon.
      by apply (filter_guarded_nonempty [_; _; _; _] (EvState _)).
Qed.

(** C8, as amended.  Take a request whose expected state is the state the
    installer reports and whose method is none of the three.  The handler
    returns the error "unknown method: " followed by the method, calls no
    mutating method of the installer, and leaves the request ERROR with the
    translated error.  The loop logs the error and goes on with its next
    [select], from the daemon as the handler left it. *)
Theorem handleRemoteAPIRequest_unknown_method request d s pending schedule :
  (0 < daemonImpl.requestsWG d)%Z →
  installer.State (daemonImpl.installer d) (remoteAPIRequest.Package request) = inr s →
  ¬ stateMismatch s (remoteAPIRequest.ExpectedState request) →
  remoteAPIRequest.Method request ≠ methodStartExperiment →
  remoteAPIRequest.Method request ≠ methodStopExperiment →
  remoteAPIRequest.Method request ≠ methodPromoteExperiment →
  daemonImpl.requests d = request :: pending →
  (result (handleRemoteAPIRequest request d)).1
  = Returns (Some (errorString ("unknown method: "
                                +:+ remoteAPIRequest.Method request)))
  ∧ List.filter mutating (trace (handleRemoteAPIRequest request d)) = []
  ∧ requestState.State (result (handleRemoteAPIRequest request d)).2
    = pbgo.TaskState_ERROR
  ∧ requestState.Err (result (handleRemoteAPIRequest request d)).2
    = Some (From (errorString ("unknown method: "
                               +:+ remoteAPIRequest.Method request)))
  ∧ trace (dispatchLoop (SelectRequest :: schedule) d)
    = trace (handleRemoteAPIRequest request (set_requests pending d))
      ++ [EvErrorf ("Daemon: could not handle remote request: unknown method: "
                    +:+ remoteAPIRequest.Method request)]
      ++ trace (dispatchLoop schedule
                  (after (handleRemoteAPIRequest request (set_requests pending d))))
  ∧ result (dispatchLoop (SelectRequest :: schedule) d)
    = ((result (dispatchLoop schedule
                  (after (handleRemoteAPIRequest request (set_requests pending d))))).1,
       (result (handleRemoteAPIRequest request (set_requests pending d))).2
       :: (result (dispatchLoop schedule
                     (after (handleRemoteAPIRequest request
                               (set_requests pending d))))).2)
  ∧ after (dispatchLoop (SelectRequest :: schedule) d)
    = after (dispatchLoop schedule
               (after (handleRemoteAPIRequest request (set_requests pending d)))).
Proof.
  intros HWG HS Hne H1 H2 H3 Hq.
  assert (∀ d', daemonImpl.installer d' = daemonImpl.installer d →
                (0 < daemonImpl.requestsWG d')%Z →
                result (handleRemoteAPIRequest request d')
                = (Returns (Some (errorString ("unknown method: "
                                     +:+ remoteAPIRequest.Method request))),
                   setRequestDone (newRequestContext request)
                     (Some (errorString ("unknown method: "
                                     +:+ remoteAPIRequest.Method request))))
                ∧ List.filter mutating (trace (handleRemoteAPIRequest request d'))
                  = []) as Hh.
  { intros d' Hi HWG'.
    pose proof (handleRemoteAPIRequest_returns request d' HWG') as Hr.
    rewrite result_handleRemoteAPIRequest in Hr |- *.
    rewrite trace_handleRemoteAPIRequest.
    rewrite (body_match _ _ _ s) in Hr |- *
      by (autorewrite with daemon; by rewrite ?Hi).
    rewrite switchMethod_unknown in Hr |- * by done.
    cbn [result after trace fst snd] in Hr |- *.
    split; [by rewrite Hr|].
    cbn [app List.filter mutating]. by autorewrite with daemon. }
  destruct (Hh d eq_refl HWG) as [Hres Htr].
  destruct (Hh (set_requests pending d) eq_refl HWG) as [Hres' _].
  rewrite Hres, Htr. repeat split; try done.
  all: cbn [dispatchLoop]; unfold loopRequest, Errorf;
    autorewrite with daemon; rewrite Hq; autorewrite with daemon;
    rewrite Hres';
    repeat (progress (cbn [fst snd app Error]; autorewrite with daemon));
    rewrite ?app_nil_r, <- ?app_assoc; reflexivity.
Qed.

(** C10. Take a request to start an experiment whose expected state is the
    state the installer reports.  When its parameters do not decode, or
    when the catalog has no package of that name and version for this
    platform, the handler calls no mutating method of the installer, so not
    [InstallExperiment], and the request ends ERROR, not INVALID_STATE,
    with the translated error of the failure. *)
Theorem handleRemoteAPIRequest_start_unresolved request d s :
  (0 < daemonImpl.requestsWG d)%Z →
  installer.State (daemonImpl.installer d) (remoteAPIRequest.Package request) = inr s →
  ¬ stateMismatch s (remoteAPIRequest.ExpectedState request) →
  remoteAPIRequest.Method request = methodStartExperiment →
  (∃ err, unmarshalParams (remoteAPIRequest.Params request) = inl err)
  ∨ (∃ params,
       unmarshalParams (remoteAPIRequest.Params request) = inr params
       ∧ getPackage (daemonImpl.catalog d) (remoteAPIRequest.Package request)
           (taskWithVersionParams.Version params) GOARCH GOOS = None) →
  List.filter mutating (trace (handleRemoteAPIRequest request d)) = []
  ∧ requestState.State (result (handleRemoteAPIRequest request d)).2
    = pbgo.TaskState_ERROR
  ∧ (∃ err,
       (result (handleRemoteAPIRequest request d)).1 = Returns (Some err)
       ∧ requestState.Err (result (handleRemoteAPIRequest request d)).2
         = Some (From err))
  ∧ daemonImpl.installer (after (handleRemoteAPIRequest request d))
    = daemonImpl.installer d.
Proof.
  intros HWG HS Hne HM Hfail.
  rewrite handleRemoteAPIRequest_returns by done.
  rewrite trace_handleRemoteAPIRequest, result_handleRemoteAPIRequest,
    installer_after_handleRemoteAPIRequest.
  rewrite (body_match _ _ _ s) by (by autorewrite with daemon).
  destruct Hfail as [[err HU]|(params & HU & HP)].
  - rewrite switchMethod_undecoded with (err := err) by done.
    cbn [result after trace fst snd app List.filter mutating setRequestDone
         requestState.State requestState.Err].
    autorewrite with daemon. repeat split; try done. by eexists.
  - rewrite switchMethod_unresolved with (params := params)
      by (by autorewrite with daemon).
    cbn [result after trace fst snd app List.filter mutating setRequestDone
         requestState.State requestState.Err].
    autorewrite with daemon. repeat split; try done. by eexists.
Qed.

End Properties.

(** ** The goroutines *)

Section Goroutines.
Context {I C : Type} `{!installer.Installer I} `{!Externals C}.

Implicit Types (s : system I C).

(** While [Stop] holds the mutex and the wait group counts a request, the
    loop cannot enter a critical section and [Wait] cannot return. *)
Lemma step_stopHolds s s' :
  step s s' →
  stopHolds s →
  stopHolds s' ∧ handled s' = handled s.
Proof.
  intros Hstep (Hm & HWG & Hstop).
  destruct Hstep; unfold stopHolds; cbn [shared m loop stop handled events];
    try congruence; try (by repeat split).
  - repeat split; try done. by left.
  - destruct Hstop as [?|[? ?]]; congruence.
  - lia.
Qed.

Lemma rtc_stopHolds s s' :
  rtc step s s' →
  stopHolds s →
  stopHolds s' ∧ handled s' = handled s.
Proof.
  induction 1 as [|s1 s2 s3 Hstep _ IH]; [done|].
  intros Hs1. destruct (step_stopHolds _ _ Hstep Hs1) as [Hs2 Hh2].
  destruct (IH Hs2) as [Hs3 Hh3]. split; [done|congruence].
Qed.

(** Once [Stop] has the mutex with a request still counted, it does not
    return, and no request is handled any more. *)
Lemma Stop_never_returns s s' :
  stopHolds s →
  rtc step s s' →
  stop s' ≠ StopReturned ∧ handled s' = handled s.
Proof.
  intros Hs Hsteps. destruct (rtc_stopHolds _ _ Hsteps Hs) as [(_ & _ & Hstop) Hh].
  split; [|done]. destruct Hstop as [?|[? ?]]; congruence.
Qed.

End Goroutines.

(** ** Runs on the host *)

(** The scenarios of the specification. *)

Example StartExperiment_scenario :
  List.filter guarded
    (trace (StartExperiment None "u2"
              (Fake.daemonWith (Fake.agentAt "") [Fake.agent2] [])))
  = [EvInstallExperiment "u2"]
  ∧ installer.State
      (daemonImpl.installer
         (after (StartExperiment None "u2"
                   (Fake.daemonWith (Fake.agentAt "") [Fake.agent2] []))))
      "agent"
    = inr {| repository.Stable := "1.0"; repository.Experiment := "2.0" |}.
Proof. by vm_compute. Qed.

Example stopRequest_scenario :
  result (handleRemoteAPIRequest Fake.stopRequest
            (Fake.daemonWith (Fake.agentAt "2.0") [Fake.agent2] [Fake.stopRequest]))
  = (Returns None,
     {| requestState.Package := "agent"; requestState.ID := "task-1";
        requestState.State := pbgo.TaskState_DONE; requestState.Err := None |})
  ∧ installer.State
      (daemonImpl.installer
         (after (handleRemoteAPIRequest Fake.stopRequest
                   (Fake.daemonWith (Fake.agentAt "2.0") [Fake.agent2]
                      [Fake.stopRequest]))))
      "agent"
    = inr {| repository.Stable := "1.0"; repository.Experiment := "" |}.
Proof. by vm_compute. Qed.

(** C1 on the scenario of the experiment that was stopped already. *)
Lemma handleRemoteAPIRequest_mismatch_witness :
  List.filter mutating
    (trace (handleRemoteAPIRequest Fake.stopRequest
              (Fake.daemonWith (Fake.agentAt "") [Fake.agent2] [Fake.stopRequest])))
  = []
  ∧ requestState.State
      (result (handleRemoteAPIRequest Fake.stopRequest
                 (Fake.daemonWith (Fake.agentAt "") [Fake.agent2]
                    [Fake.stopRequest]))).2
    = pbgo.TaskState_INVALID_STATE
  ∧ (result (handleRemoteAPIRequest Fake.stopRequest
               (Fake.daemonWith (Fake.agentAt "") [Fake.agent2]
                  [Fake.stopRequest]))).1
    = Returns None
  ∧ daemonImpl.installer
      (after (handleRemoteAPIRequest Fake.stopRequest
                (Fake.daemonWith (Fake.agentAt "") [Fake.agent2]
                   [Fake.stopRequest])))
    = Fake.agentAt "".
Proof.
  apply (handleRemoteAPIRequest_mismatch Fake.stopRequest
           (Fake.daemonWith (Fake.agentAt "") [Fake.agent2] [Fake.stopRequest])
           {| repository.Stable := "1.0"; repository.Experiment := "" |}).
  - reflexivity.
  - reflexivity.
  - right. discriminate.
Defined.

(** C5 on the installer whose queries fail. *)
Lemma refreshState_query_failure_witness :
  refreshState None (Fake.daemonWith Fake.unreachable [] [])
  = {| result := tt; after := Fake.daemonWith Fake.unreachable [] [];
       trace := [EvRefreshState; EvStates;
                 EvErrorf "could not get installer state: installer not found"] |}
  ∧ List.filter isSetState
      (trace (refreshState None (Fake.daemonWith Fake.unreachable [] [])))
    = [].
Proof.
  apply (refreshState_query_failure None (Fake.daemonWith Fake.unreachable [] [])
           (errorString "installer not found")).
  reflexivity.
Defined.

(** C2 as it is stated fails on a request to start an experiment with a
    version that the catalog does not have: the expected state is the state
    the installer reports, and there is not one mutating call, there is
    none. *)
Lemma handleRemoteAPIRequest_applies_counterexample :
  installer.State (Fake.agentAt "") "agent"
  = inr {| repository.Stable := "1.0"; repository.Experiment := "" |}
  ∧ ¬ stateMismatch {| repository.Stable := "1.0"; repository.Experiment := "" |}
        (remoteAPIRequest.ExpectedState (Fake.startRequest "3.0"))
  ∧ remoteAPIRequest.Method (Fake.startRequest "3.0") = methodStartExperiment
  ∧ (¬ ∃ call,
         List.filter mutating
           (trace (handleRemoteAPIRequest (Fake.startRequest "3.0")
                     (Fake.daemonWith (Fake.agentAt "") [Fake.agent2]
                        [Fake.startRequest "3.0"])))
         = [call]).
Proof.
  split; [reflexivity|]. split; [by intros [?|?]|]. split; [reflexivity|].
  intros [call Hcall]. vm_compute in Hcall. discriminate.
Qed.

(** C2, as amended, on the scenario of the experiment to stop. *)
Lemma handleRemoteAPIRequest_applies_witness :
  appliedOnce Fake.stopRequest
    (Fake.daemonWith (Fake.agentAt "2.0") [Fake.agent2] [Fake.stopRequest])
    (EvRemoveExperiment "agent")
    (λ i, installer.RemoveExperiment i "agent")
    "could not stop experiment".
Proof.
  apply (handleRemoteAPIRequest_applies Fake.stopRequest
           (Fake.daemonWith (Fake.agentAt "2.0") [Fake.agent2] [Fake.stopRequest])
           {| repository.Stable := "1.0"; repository.Experiment := "2.0" |}).
  - reflexivity.
  - reflexivity.
  - intros [Hne|Hne]; apply Hne; reflexivity.
  - reflexivity.
Defined.

(** C8 as it is stated fails on a request with an unknown method whose
    expected state is not the state the installer reports: the handler
    returns nil, no error. *)
Lemma handleRemoteAPIRequest_unknown_method_counterexample :
  (remoteAPIRequest.Method (Fake.restartRequest "1.0" "2.0")
     ∉ [methodStartExperiment; methodStopExperiment; methodPromoteExperiment])
  ∧ (¬ ∃ err,
         (result (handleRemoteAPIRequest (Fake.restartRequest "1.0" "2.0")
                    (Fake.daemonWith (Fake.agentAt "") [Fake.agent2]
                       [Fake.restartRequest "1.0" "2.0"]))).1
         = Returns (Some err)).
Proof.
  split.
  - apply (bool_decide_unpack _). by vm_compute.
  - intros [err Herr]. vm_compute in Herr. discriminate.
Qed.

(** C8, as amended, on a request with an unknown method, followed in the
    channel by the request to stop the experiment. *)
Lemma handleRemoteAPIRequest_unknown_method_witness :
  (result (handleRemoteAPIRequest (Fake.restartRequest "1.0" "2.0")
             (Fake.daemonWith (Fake.agentAt "2.0") [Fake.agent2]
                [Fake.restartRequest "1.0" "2.0"; Fake.stopRequest]))).1
  = Returns (Some (errorString "unknown method: restart"))
  ∧ List.filter mutating
      (trace (handleRemoteAPIRequest (Fake.restartRequest "1.0" "2.0")
                (Fake.daemonWith (Fake.agentAt "2.0") [Fake.agent2]
                   [Fake.restartRequest "1.0" "2.0"; Fake.stopRequest])))
    = [].
Proof.
  pose proof (handleRemoteAPIRequest_unknown_method
                (Fake.restartRequest "1.0" "2.0")
                (Fake.daemonWith (Fake.agentAt "2.0") [Fake.agent2]
                   [Fake.restartRequest "1.0" "2.0"; Fake.stopRequest])
                {| repository.Stable := "1.0"; repository.Experiment := "2.0" |}
                [Fake.stopRequest] [SelectRequest]) as Hthm.
  destruct Hthm as (Hres & Htr & _).
  - reflexivity.
  - reflexivity.
  - intros [Hne|Hne]; apply Hne; reflexivity.
  - discriminate.
  - discriminate.
  - discriminate.
  - reflexivity.
  - split; [exact Hres|exact Htr].
Defined.

(** After the request with the unknown method, the loop handles the request
    that follows. *)
Example dispatchLoop_goes_on :
  List.filter (λ e, guarded e || isErrorf e)
    (trace (dispatchLoop [SelectRequest; SelectRequest]
              (Fake.daemonWith (Fake.agentAt "2.0") [Fake.agent2]
                 [Fake.restartRequest "1.0" "2.0"; Fake.stopRequest])))
  = [EvState "agent";
     EvErrorf "Daemon: could not handle remote request: unknown method: restart";
     EvState "agent"; EvRemoveExperiment "agent"]
  ∧ map requestState.State
      (result (dispatchLoop [SelectRequest; SelectRequest]
                 (Fake.daemonWith (Fake.agentAt "2.0") [Fake.agent2]
                    [Fake.restartRequest "1.0" "2.0"; Fake.stopRequest]))).2
    = [pbgo.TaskState_ERROR; pbgo.TaskState_DONE].
Proof. by vm_compute. Qed.

(** C10 on a request to start an experiment with a version that the catalog
    does not have. *)
Lemma handleRemoteAPIRequest_start_unresolved_witness :
  List.filter mutating
    (trace (handleRemoteAPIRequest (Fake.startRequest "3.0")
              (Fake.daemonWith (Fake.agentAt "") [Fake.agent2]
                 [Fake.startRequest "3.0"])))
  = []
  ∧ requestState.State
      (result (handleRemoteAPIRequest (Fake.startRequest "3.0")
                 (Fake.daemonWith (Fake.agentAt "") [Fake.agent2]
                    [Fake.startRequest "3.0"]))).2
    = pbgo.TaskState_ERROR.
Proof.
  pose proof (handleRemoteAPIRequest_start_unresolved
                (Fake.startRequest "3.0")
                (Fake.daemonWith (Fake.agentAt "") [Fake.agent2]
                   [Fake.startRequest "3.0"])
                {| repository.Stable := "1.0"; repository.Experiment := "" |})
    as Hthm.
  destruct Hthm as (Htr & Hst & _).
  - reflexivity.
  - reflexivity.
  - intros [Hne|Hne]; apply Hne; reflexivity.
  - reflexivity.
  - right. exists {| taskWithVersionParams.Version := "3.0" |}.
    split; reflexivity.
  - split; [exact Htr|exact Hst].
Defined.

(** A request whose state query fails is left RUNNING when the handler
    returns. *)
Example query_failure_leaves_running :
  result (handleRemoteAPIRequest Fake.stopRequest
            (Fake.daemonWith Fake.unreachable [] [Fake.stopRequest]))
  = (Returns (Some (wrapError "could not get installer state"
                      (errorString "installer not found"))),
     {| requestState.Package := "agent"; requestState.ID := "task-1";
        requestState.State := pbgo.TaskState_RUNNING; requestState.Err := None |}).
Proof. by vm_compute. Qed.

(** C4. [Stop] is called while the request to stop the experiment is in the
    channel, and takes the mutex before the loop takes the request.  From
    there, whatever the goroutines do, [Stop] does not return and the
    request is not handled; and the goroutines can reach a state where none
    can step: [Stop] waits for the wait group with the mutex held, the loop
    waits for the mutex in [handleRemoteAPIRequest]. *)
Theorem Stop_deadlock :
  step
    (stopCalled (Fake.daemonWith (Fake.agentAt "2.0") [Fake.agent2]
                   [Fake.stopRequest]))
    (stopLocked (Fake.daemonWith (Fake.agentAt "2.0") [Fake.agent2]
                   [Fake.stopRequest]))
  ∧ (∀ s',
       rtc step
         (stopLocked (Fake.daemonWith (Fake.agentAt "2.0") [Fake.agent2]
                        [Fake.stopRequest]))
         s' →
       stop s' ≠ StopReturned ∧ handled s' = [])
  ∧ (∃ s,
       rtc step
         (stopLocked (Fake.daemonWith (Fake.agentAt "2.0") [Fake.agent2]
                        [Fake.stopRequest]))
         s
       ∧ stuck s
       ∧ stop s = StopWaiting
       ∧ m s = true
       ∧ loop s = LoopRequest Fake.stopRequest
       ∧ daemonImpl.requestsWG (shared s) = 1%Z).
Proof.
  split; [by apply step_stop_lock|]. split.
  { intros s' Hsteps. apply (Stop_never_returns _ _) in Hsteps; [done|].
    split; [done|]. split; [done|]. by right. }
  eexists. split.
  { eapply rtc_l; [apply step_stop_close; reflexivity|].
    eapply rtc_l; [eapply step_select_request; reflexivity|].
    apply rtc_refl. }
  split; [|by repeat split].
  intros s' Hstep.
  inversion Hstep as [? Hl|? Hl|? ? ? Hl|? Hl Hm|? ? Hl Hm|? Hs|? Hs|? Hs|? Hs HWG];
    try discriminate Hl; try discriminate Hm; try discriminate Hs.
  vm_compute in HWG. discriminate.
Qed.

(** ** More of the daemon *)

(** Rewriting with the equations, and cases on what the collaborators
    return. *)
Ltac by_cases :=
  repeat (progress (autorewrite with daemon; cbn [app]) || case_match).

Section Fields.
Context {I C : Type}.

Implicit Types (d : daemonImpl.t I C).

Lemma kept_refl d : kept d d.
Proof. by repeat split. Qed.

Lemma kept_trans d1 d2 d3 : kept d1 d2 → kept d2 d3 → kept d1 d3.
Proof.
  intros (?&?&?&?) (?&?&?&?). repeat split; congruence.
Qed.

Lemma kept_set_rc r d : kept d (set_rc r d).
Proof. by repeat split. Qed.

Lemma kept_set_installer (i : I) d : kept d (set_installer i d).
Proof. by repeat split. Qed.

Lemma kept_set_requestsWG n d : kept d (set_requestsWG n d).
Proof. by repeat split. Qed.

Lemma rc_set_installer (i : I) d :
  daemonImpl.rc (set_installer i d) = daemonImpl.rc d.
Proof. reflexivity. Qed.

Lemma rc_set_rc r d : daemonImpl.rc (set_rc r d) = r.
Proof. reflexivity. Qed.

Lemma rc_set_requestsWG n d :
  daemonImpl.rc (set_requestsWG n d) = daemonImpl.rc d.
Proof. reflexivity. Qed.

Lemma requestsWG_set_requests q d :
  daemonImpl.requestsWG (set_requests q d) = daemonImpl.requestsWG d.
Proof. reflexivity. Qed.

Lemma requests_set_requests q d : daemonImpl.requests (set_requests q d) = q.
Proof. reflexivity. Qed.

Lemma stopChan_set_requests q d :
  daemonImpl.stopChan (set_requests q d) = daemonImpl.stopChan d.
Proof. reflexivity. Qed.

Lemma catalog_set_catalog (c : C) d : daemonImpl.catalog (set_catalog c d) = c.
Proof. reflexivity. Qed.

Lemma set_catalog_twice (c1 c2 : C) d :
  set_catalog c2 (set_catalog c1 d) = set_catalog c2 d.
Proof. reflexivity. Qed.

End Fields.

#[local] Hint Rewrite @rc_set_installer @rc_set_rc @rc_set_requestsWG
  @requestsWG_set_requests @requests_set_requests @stopChan_set_requests
  @catalog_set_catalog : daemon.

Section Local.
Context {I C : Type} `{!installer.Installer I} `{!Externals C}.

Local Abbreviation daemon := (daemonImpl.t I C).

Implicit Types (d : daemon) (ctx : context) (request : remoteAPIRequest.t).

Lemma kept_refreshState ctx d : kept d (after (refreshState ctx d)).
Proof. rewrite after_refreshState. apply kept_set_rc. Qed.

Lemma kept_transition ctx start ok prefix e f d :
  kept d (after (transition ctx start ok prefix e f d)).
Proof.
  rewrite after_transition.
  eapply kept_trans; [apply kept_set_rc|].
  eapply kept_trans; [apply kept_set_installer|]. apply kept_set_rc.
Qed.

(** What the four local operations have in common. *)
Lemma locked_transition ctx start ok prefix e f d :
  mutating e = true →
  List.filter guarded
    (trace (bind Lock (λ _, defer Unlock (transition ctx start ok prefix e f)) d))
  = [e]
  ∧ result (bind Lock (λ _, defer Unlock (transition ctx start ok prefix e f)) d)
    = match (f (daemonImpl.installer d)).2 with
      | None => None
      | Some err => Some (wrapError prefix err)
      end
  ∧ daemonImpl.installer
      (after (bind Lock (λ _, defer Unlock (transition ctx start ok prefix e f)) d))
    = (f (daemonImpl.installer d)).1
  ∧ kept d
      (after (bind Lock (λ _, defer Unlock (transition ctx start ok prefix e f)) d))
  ∧ daemonImpl.requestsWG
      (after (bind Lock (λ _, defer Unlock (transition ctx start ok prefix e f)) d))
    = daemonImpl.requestsWG d.
Proof.
  intros He.
  assert (isState e = false) as He' by (by destruct e).
  split; [|split; [|split; [|split]]].
  - rewrite trace_locked_transition. unfold guarded.
    case_match; cbn [app List.filter mutating isState orb];
      autorewrite with daemon; by rewrite He.
  - unfold Lock, Unlock. autorewrite with daemon.
    rewrite result_transition. unfold wrapping. by case_match.
  - unfold Lock, Unlock. autorewrite with daemon.
    rewrite after_transition. by autorewrite with daemon.
  - unfold Lock, Unlock. autorewrite with daemon. apply kept_transition.
  - unfold Lock, Unlock. autorewrite with daemon.
    rewrite after_transition. by autorewrite with daemon.
Qed.

(** X1. [StartExperiment(ctx, url)], called locally, passes the URL to the
    installer's [InstallExperiment] as it is, once, without a query of the
    state of a package; it returns nil or the error of the call wrapped as
    "could not install experiment", and leaves the catalog, the channel of
    requests, the stop channel and the wait group as they were. *)
Theorem StartExperiment_unconditional ctx url d :
  List.filter guarded (trace (StartExperiment ctx url d)) = [EvInstallExperiment url]
  ∧ result (StartExperiment ctx url d)
    = match (installer.InstallExperiment (daemonImpl.installer d) url).2 with
      | None => None
      | Some err => Some (wrapError "could not install experiment" err)
      end
  ∧ daemonImpl.installer (after (StartExperiment ctx url d))
    = (installer.InstallExperiment (daemonImpl.installer d) url).1
  ∧ kept d (after (StartExperiment ctx url d))
  ∧ daemonImpl.requestsWG (after (StartExperiment ctx url d))
    = daemonImpl.requestsWG d.
Proof.
  exact (locked_transition ctx _ _ "could not install experiment"
           (EvInstallExperiment url) (λ i, installer.InstallExperiment i url)
           d eq_refl).
Qed.

(** X2. [PromoteExperiment(ctx, pkg)], called locally, calls the
    installer's [PromoteExperiment] for the package, once, without a query
    of the state of the package; it returns nil or the error of the call
    wrapped as "could not promote experiment", and leaves the catalog, the
    channel of requests, the stop channel and the wait group as they
    were. *)
Theorem PromoteExperiment_unconditional ctx pkg d :
  List.filter guarded (trace (PromoteExperiment ctx pkg d)) = [EvPromoteExperiment pkg]
  ∧ result (PromoteExperiment ctx pkg d)
    = match (installer.PromoteExperiment (daemonImpl.installer d) pkg).2 with
      | None => None
      | Some err => Some (wrapError "could not promote experiment" err)
      end
  ∧ daemonImpl.installer (after (PromoteExperiment ctx pkg d))
    = (installer.PromoteExperiment (daemonImpl.installer d) pkg).1
  ∧ kept d (after (PromoteExperiment ctx pkg d))
  ∧ daemonImpl.requestsWG (after (PromoteExperiment ctx pkg d))
    = daemonImpl.requestsWG d.
Proof.
  exact (locked_transition ctx _ _ "could not promote experiment"
           (EvPromoteExperiment pkg) (λ i, installer.PromoteExperiment i pkg)
           d eq_refl).
Qed.

(** X3. [StopExperiment(ctx, pkg)], called locally, calls the installer's
    [RemoveExperiment] for the package, once, without a query of the state
    of the package; it returns nil or the error of the call wrapped as
    "could not stop experiment", and leaves the catalog, the channel of
    requests, the stop channel and the wait group as they were. *)
Theorem StopExperiment_unconditional ctx pkg d :
  List.filter guarded (trace (StopExperiment ctx pkg d)) = [EvRemoveExperiment pkg]
  ∧ result (StopExperiment ctx pkg d)
    = match (installer.RemoveExperiment (daemonImpl.installer d) pkg).2 with
      | None => None
      | Some err => Some (wrapError "could not stop experiment" err)
      end
  ∧ daemonImpl.installer (after (StopExperiment ctx pkg d))
    = (installer.RemoveExperiment (daemonImpl.installer d) pkg).1
  ∧ kept d (after (StopExperiment ctx pkg d))
  ∧ daemonImpl.requestsWG (after (StopExperiment ctx pkg d))
    = daemonImpl.requestsWG d.
Proof.
  exact (locked_transition ctx _ _ "could not stop experiment"
           (EvRemoveExperiment pkg) (λ i, installer.RemoveExperiment i pkg)
           d eq_refl).
Qed.

End Local.

Section Reporter.
Context {I C : Type} `{!installer.Installer I} `{!Externals C}.

Local Abbreviation daemon := (daemonImpl.t I C).

Implicit Types (d : daemon) (ctx : context) (request : remoteAPIRequest.t).

(** The list the remote configuration holds after a refresh. *)
Local Abbreviation publishedBy ctx d :=
  (remoteConfig.state (daemonImpl.rc (after (refreshState ctx d)))).

Lemma publishedBy_eq ctx d state :
  installer.States (daemonImpl.installer d) = inr state →
  publishedBy ctx d = (λ e, packageState ctx e.1 e.2) <$> map_to_list state.
Proof.
  intros HS. rewrite after_refreshState. autorewrite with daemon.
  unfold refreshed. by rewrite HS.
Qed.

Lemma refreshReport_eq ctx d state :
  installer.States (daemonImpl.installer d) = inr state →
  refreshReport ctx d = EvSetState (publishedBy ctx d).
Proof.
  intros HS. rewrite (publishedBy_eq _ _ state HS).
  unfold refreshReport. by rewrite HS.
Qed.

(** X4. When the installer's [States()] query succeeds, [refreshState]
    publishes, in one call to [SetState], one package state per package of
    the installer's map, with the stable and the experiment version of the
    package.  The entry of the package of the request in the context, and
    no other, carries a task: the id and the state of the request and, when
    the request has an error, its code and its message. *)
Theorem refreshState_publishes ctx d state :
  installer.States (daemonImpl.installer d) = inr state →
  trace (refreshState ctx d) = [EvRefreshState; EvStates; EvSetState (publishedBy ctx d)]
  ∧ length (publishedBy ctx d) = size state
  ∧ NoDup (pbgo.Package <$> publishedBy ctx d)
  ∧ (∀ pkg s,
       state !! pkg = Some s
       ↔ ∃ p, p ∈ publishedBy ctx d
              ∧ pbgo.Package p = pkg
              ∧ pbgo.StableVersion p = repository.Stable s
              ∧ pbgo.ExperimentVersion p = repository.Experiment s)
  ∧ (∀ p, p ∈ publishedBy ctx d →
          pbgo.Task p
          = match ctx with
            | Some requestState =>
                if decide (pbgo.Package p = requestState.Package requestState) then
                  Some {| pbgo.Id := requestState.ID requestState;
                          pbgo.State := requestState.State requestState;
                          pbgo.Error :=
                            match requestState.Err requestState with
                            | Some e =>
                                Some {| pbgo.Code := installerErrors.Code e;
                                        pbgo.Message := installerErrors.Error e |}
                            | None => None
                            end |}
                else None
            | None => None
            end).
Proof.
  intros HS. rewrite trace_refreshState, (refreshReport_eq _ _ state HS).
  rewrite (publishedBy_eq _ _ state HS).
  split; [done|]. split; [by rewrite length_fmap, length_map_to_list|].
  split.
  { rewrite <- list_fmap_compose.
    replace (pbgo.Package ∘ (λ e, packageState ctx e.1 e.2))
      with (fst : string * repository.State → string) by done.
    apply NoDup_fst_map_to_list. }
  split.
  - intros pkg s. rewrite <- elem_of_map_to_list. split.
    + intros Hin. exists (packageState ctx pkg s). split; [|done].
      apply list_elem_of_fmap. by exists (pkg, s).
    + intros (p & Hp & Hpkg & Hst & Hex).
      apply list_elem_of_fmap in Hp as ([pkg' s'] & -> & Hin).
      cbn in Hpkg, Hst, Hex. subst pkg'.
      destruct s as [a b], s' as [a' b']; cbn in Hst, Hex. by subst.
  - intros p Hp.
    apply list_elem_of_fmap in Hp as ([pkg' s'] & -> & Hin).
    unfold packageState; cbn [pbgo.Task pbgo.Package fst snd].
    destruct ctx as [rs|]; [|done]. case_decide; [|done].
    by destruct (requestState.Err rs).
Qed.

(** X5. [refreshState] calls the installer for [States()] once and for
    nothing else, and changes nothing of the daemon but the list of package
    states that the remote configuration holds. *)
Theorem refreshState_frame ctx d :
  List.filter installerCall (trace (refreshState ctx d)) = [EvStates]
  ∧ daemonImpl.installer (after (refreshState ctx d)) = daemonImpl.installer d
  ∧ kept d (after (refreshState ctx d))
  ∧ daemonImpl.requestsWG (after (refreshState ctx d)) = daemonImpl.requestsWG d
  ∧ remoteConfig.started (daemonImpl.rc (after (refreshState ctx d)))
    = remoteConfig.started (daemonImpl.rc d)
  ∧ remoteConfig.closed (daemonImpl.rc (after (refreshState ctx d)))
    = remoteConfig.closed (daemonImpl.rc d).
Proof.
  rewrite trace_refreshState.
  split; [|split; [|split; [|split; [|split]]]].
  - unfold refreshReport. by case_match.
  - by autorewrite with daemon.
  - apply kept_refreshState.
  - by autorewrite with daemon.
  - autorewrite with daemon. unfold refreshed. by case_match.
  - autorewrite with daemon. unfold refreshed. by case_match.
Qed.

(** X6. [GetState] returns what the installer's [States()] returns and
    publishes nothing; a [refreshState] on the same daemon publishes exactly
    when [GetState] returns a map, and then one package state per package
    of that map. *)
Theorem GetState_reads (ctx : context) d :
  result (GetState d) = installer.States (daemonImpl.installer d)
  ∧ after (GetState d) = d
  ∧ trace (GetState d) = [EvLock; EvStates; EvUnlock]
  ∧ match result (GetState d) with
    | inl _ => List.filter isSetState (trace (refreshState ctx d)) = []
    | inr state =>
        List.filter isSetState (trace (refreshState ctx d))
        = [EvSetState (publishedBy ctx d)]
        ∧ pbgo.Package <$> publishedBy ctx d = (map_to_list state).*1
    end.
Proof.
  split; [done|]. split; [done|]. split; [done|].
  change (result (GetState d)) with (installer.States (daemonImpl.installer d)).
  destruct (installer.States (daemonImpl.installer d)) as [err|state] eqn:HS.
  - rewrite trace_refreshState. unfold refreshReport. by rewrite HS.
  - rewrite trace_refreshState, (refreshReport_eq _ _ state HS).
    split; [done|]. rewrite (publishedBy_eq _ _ state HS).
    rewrite <- list_fmap_compose. done.
Qed.

(** X7. After [handleCatalogUpdate c], [GetPackage] looks the package up in
    [c], whatever the catalog was before; and of two updates in a row, the
    second is the one that stays. *)
Theorem GetPackage_after_handleCatalogUpdate (c1 c2 : C) (pkg version : string) d :
  result (GetPackage pkg version (after (handleCatalogUpdate c1 d)))
  = match getPackage c1 pkg version GOARCH GOOS with
    | Some catalogPackage => inr catalogPackage
    | None =>
        inl (errorString ("could not get package " +:+ pkg +:+ ", " +:+ version
                          +:+ " for " +:+ GOARCH +:+ ", " +:+ GOOS))
    end
  ∧ after (handleCatalogUpdate c2 (after (handleCatalogUpdate c1 d)))
    = after (handleCatalogUpdate c2 d).
Proof.
  split; [|done].
  unfold GetPackage, handleCatalogUpdate, Lock, Unlock, Infof.
  autorewrite with daemon. by case_match.
Qed.

(** X8. [Start] returns nil and does not call the installer.  It starts
    the remote configuration exactly when remote updates are enabled, and
    makes no other call to it; with remote updates disabled it leaves the
    daemon as it was. *)
Theorem Start_subscribes d :
  result (Start d) = None
  ∧ List.filter installerCall (trace (Start d)) = []
  ∧ List.filter remoteCall (trace (Start d))
    = (if daemonImpl.remoteUpdates d then [EvRCStart] else [])
  ∧ after (Start d)
    = (if daemonImpl.remoteUpdates d
       then set_rc (remoteConfig.Start (daemonImpl.rc d)) d
       else d)
  ∧ daemonImpl.installer (after (Start d)) = daemonImpl.installer d
  ∧ kept d (after (Start d)).
Proof.
  unfold Start, Lock, Unlock, Infof, rc_Start.
  destruct (daemonImpl.remoteUpdates d) eqn:Hr;
    autorewrite with daemon; rewrite Hr; cbn [negb];
    autorewrite with daemon; cbn [result after trace app];
    repeat split; try done.
Qed.

(** X9. With room in the channel, [scheduleRemoteAPIRequest] adds one to
    the wait group, puts the request behind the requests that wait, and
    returns nil; it calls no collaborator and changes nothing else. *)
Theorem scheduleRemoteAPIRequest_enqueues request d :
  length (daemonImpl.requests d) < requestsCapacity →
  result (scheduleRemoteAPIRequest request d) = Some None
  ∧ trace (scheduleRemoteAPIRequest request d) = []
  ∧ daemonImpl.requests (after (scheduleRemoteAPIRequest request d))
    = daemonImpl.requests d ++ [request]
  ∧ daemonImpl.requestsWG (after (scheduleRemoteAPIRequest request d))
    = (daemonImpl.requestsWG d + 1)%Z
  ∧ daemonImpl.installer (after (scheduleRemoteAPIRequest request d))
    = daemonImpl.installer d
  ∧ daemonImpl.catalog (after (scheduleRemoteAPIRequest request d))
    = daemonImpl.catalog d
  ∧ daemonImpl.stopChan (after (scheduleRemoteAPIRequest request d))
    = daemonImpl.stopChan d
  ∧ daemonImpl.rc (after (scheduleRemoteAPIRequest request d)) = daemonImpl.rc d
  ∧ (counted d → counted (after (scheduleRemoteAPIRequest request d))).
Proof.
  intros Hroom. unfold scheduleRemoteAPIRequest.
  autorewrite with daemon. cbn [daemonImpl.requests set_requestsWG].
  rewrite decide_True by done. autorewrite with daemon.
  repeat split; try done.
  unfold counted. cbn [daemonImpl.requests daemonImpl.requestsWG set_requests
                         set_requestsWG].
  rewrite length_app. cbn [length]. lia.
Qed.

(** X10. With the channel full, at 32 requests, [scheduleRemoteAPIRequest]
    does not return: the sender stays in the send, the channel is as it
    was, and the wait group was raised already. *)
Theorem scheduleRemoteAPIRequest_blocks request d :
  (requestsCapacity ≤ length (daemonImpl.requests d))%nat →
  result (scheduleRemoteAPIRequest request d) = None
  ∧ daemonImpl.requests (after (scheduleRemoteAPIRequest request d))
    = daemonImpl.requests d
  ∧ daemonImpl.requestsWG (after (scheduleRemoteAPIRequest request d))
    = (daemonImpl.requestsWG d + 1)%Z
  ∧ (counted d → counted (after (scheduleRemoteAPIRequest request d))).
Proof.
  intros Hfull. unfold scheduleRemoteAPIRequest.
  autorewrite with daemon. cbn [daemonImpl.requests set_requestsWG].
  rewrite decide_False by lia. autorewrite with daemon.
  repeat split; try done.
  unfold counted. cbn [daemonImpl.requests daemonImpl.requestsWG set_requestsWG].
  lia.
Qed.

End Reporter.

Section Handler.
Context {I C : Type} `{!installer.Installer I} `{!Externals C}.

Local Abbreviation daemon := (daemonImpl.t I C).

Implicit Types (d : daemon) (ctx : context) (request : remoteAPIRequest.t).

Local Abbreviation entered request d :=
  (set_rc (refreshed (Some (newRequestContext request)) d) d).
Local Abbreviation bodyOf request d :=
  (handleRemoteAPIRequest_body request (newRequestContext request)
     (entered request d)).
(** The request state when the handler returns. *)
Local Abbreviation final request d :=
  ((result (handleRemoteAPIRequest request d)).2).

Lemma refreshed_success ctx d state :
  installer.States (daemonImpl.installer d) = inr state →
  refreshed ctx d
  = remoteConfig.SetState (daemonImpl.rc d)
      ((λ e, packageState ctx e.1 e.2) <$> map_to_list state).
Proof. intros HS. unfold refreshed. by rewrite HS. Qed.

Lemma refreshReport_success ctx d state :
  installer.States (daemonImpl.installer d) = inr state →
  refreshReport ctx d
  = EvSetState ((λ e, packageState ctx e.1 e.2) <$> map_to_list state).
Proof. intros HS. unfold refreshReport. by rewrite HS. Qed.

Lemma kept_switchMethod ctx request d :
  kept d (after (switchMethod ctx request d)).
Proof.
  unfold switchMethod, Infof.
  by_cases; try apply kept_refl;
    rewrite ?startExperiment_transition, ?stopExperiment_transition,
      ?promoteExperiment_transition; apply kept_transition.
Qed.

Lemma kept_body request state d :
  kept d (after (handleRemoteAPIRequest_body request state d)).
Proof.
  unfold handleRemoteAPIRequest_body, Infof.
  by_cases; try apply kept_refl; try apply kept_set_rc. apply kept_switchMethod.
Qed.

Lemma after_handleRemoteAPIRequest request d :
  after (handleRemoteAPIRequest request d)
  = set_requestsWG (daemonImpl.requestsWG (after (bodyOf request d)) - 1)%Z
      (set_rc (refreshed (Some (result (bodyOf request d)).2) (after (bodyOf request d)))
         (after (bodyOf request d))).
Proof.
  unfold handleRemoteAPIRequest, requestsWG_Done, Lock, Unlock.
  by autorewrite with daemon.
Qed.

Lemma identity_body request state d :
  requestState.Package (result (handleRemoteAPIRequest_body request state d)).2
  = requestState.Package state
  ∧ requestState.ID (result (handleRemoteAPIRequest_body request state d)).2
    = requestState.ID state.
Proof.
  unfold handleRemoteAPIRequest_body, Infof.
  by_cases; try done. by destruct (result _).
Qed.

Lemma frame_handleRemoteAPIRequest request d :
  kept d (after (handleRemoteAPIRequest request d))
  ∧ daemonImpl.requestsWG (after (handleRemoteAPIRequest request d))
    = (daemonImpl.requestsWG d - 1)%Z
  ∧ requestState.Package (final request d) = remoteAPIRequest.Package request
  ∧ requestState.ID (final request d) = remoteAPIRequest.ID request.
Proof.
  split; [|split].
  - rewrite after_handleRemoteAPIRequest.
    eapply kept_trans; [apply kept_set_rc|].
    eapply kept_trans; [apply kept_body|].
    eapply kept_trans; [apply kept_set_rc|]. apply kept_set_requestsWG.
  - rewrite after_handleRemoteAPIRequest. autorewrite with daemon.
    rewrite requestsWG_after_body. by autorewrite with daemon.
  - rewrite result_handleRemoteAPIRequest. cbn [snd].
    apply identity_body.
Qed.

(** X11. The handler leaves the catalog, the channel of requests, the stop
    channel and the flag of remote updates as they were, takes one from
    the wait group, and ends with a request state that has the package and
    the id of the request. *)
Theorem handleRemoteAPIRequest_frame request d :
  kept d (after (handleRemoteAPIRequest request d))
  ∧ daemonImpl.requestsWG (after (handleRemoteAPIRequest request d))
    = (daemonImpl.requestsWG d - 1)%Z
  ∧ requestState.Package (final request d) = remoteAPIRequest.Package request
  ∧ requestState.ID (final request d) = remoteAPIRequest.ID request.
Proof. apply frame_handleRemoteAPIRequest. Qed.

(** X12. What the handler returns and how the request ends, by what the
    installer reports.  When the query of the state fails, the handler
    returns the error wrapped as "could not get installer state" and the
    request stays RUNNING, without an error.  When the state is not the
    expected one, the handler returns nil and the request ends
    INVALID_STATE, without an error.  When the state is the expected one,
    the request ends DONE exactly when the handler returns nil and ERROR
    otherwise, and its error is the translation of the error returned. *)
Theorem handleRemoteAPIRequest_status request d :
  (0 < daemonImpl.requestsWG d)%Z →
  ∃ err,
    (result (handleRemoteAPIRequest request d)).1 = Returns err
    ∧ match installer.State (daemonImpl.installer d)
              (remoteAPIRequest.Package request) with
      | inl e =>
          err = Some (wrapError "could not get installer state" e)
          ∧ requestState.State (final request d) = pbgo.TaskState_RUNNING
          ∧ requestState.Err (final request d) = None
      | inr s =>
          if decide (stateMismatch s (remoteAPIRequest.ExpectedState request)) then
            err = None
            ∧ requestState.State (final request d) = pbgo.TaskState_INVALID_STATE
            ∧ requestState.Err (final request d) = None
          else
            requestState.State (final request d)
            = match err with
              | None => pbgo.TaskState_DONE
              | Some _ => pbgo.TaskState_ERROR
              end
            ∧ requestState.Err (final request d) = From <$> err
      end.
Proof.
  intros HWG. eexists. split; [by apply handleRemoteAPIRequest_returns|].
  rewrite result_handleRemoteAPIRequest. cbn [snd].
  destruct (installer.State _ _) as [e|s] eqn:HS.
  - by rewrite (body_query_failure _ _ _ e) by (by autorewrite with daemon).
  - case_decide as Hne.
    + by rewrite (body_mismatch _ _ _ s) by (by autorewrite with daemon).
    + rewrite (body_match _ _ _ s) by (by autorewrite with daemon).
      cbn [result fst snd]. by destruct (result (switchMethod _ _ _)).
Qed.

(** X13. When the query of the state of the package fails, the handler
    makes no other call to the installer than that query and the
    [States()] queries of its two refreshes, and leaves the installer as it
    was. *)
Theorem handleRemoteAPIRequest_query_failure request d err :
  installer.State (daemonImpl.installer d) (remoteAPIRequest.Package request)
  = inl err →
  List.filter installerCall (trace (handleRemoteAPIRequest request d))
  = [EvStates; EvState (remoteAPIRequest.Package request); EvStates]
  ∧ List.filter isRefreshState (trace (handleRemoteAPIRequest request d))
    = [EvRefreshState; EvRefreshState]
  ∧ daemonImpl.installer (after (handleRemoteAPIRequest request d))
    = daemonImpl.installer d.
Proof.
  intros HS.
  rewrite trace_handleRemoteAPIRequest, installer_after_handleRemoteAPIRequest.
  rewrite (body_query_failure _ _ _ err) by (by autorewrite with daemon).
  cbn [result after trace fst snd app].
  assert (∀ ctx d', installerCall (refreshReport ctx d') = false) as Hc.
  { intros. unfold refreshReport. by case_match. }
  cbn [List.filter installerCall isRefreshState].
  rewrite !Hc. by autorewrite with daemon.
Qed.

(** X14. When the [States()] query of the last refresh of the handler
    succeeds, the last list the handler publishes is the list the remote
    configuration holds afterwards, and its entry for the package of the
    request, when the installer has the package, carries the task with the
    id of the request and the state the request ended in. *)
Theorem handleRemoteAPIRequest_reports request d state s :
  installer.States (daemonImpl.installer (after (handleRemoteAPIRequest request d)))
  = inr state →
  state !! remoteAPIRequest.Package request = Some s →
  last (List.filter isSetState (trace (handleRemoteAPIRequest request d)))
  = Some (EvSetState
            (remoteConfig.state
               (daemonImpl.rc (after (handleRemoteAPIRequest request d)))))
  ∧ {| pbgo.Package := remoteAPIRequest.Package request;
       pbgo.StableVersion := repository.Stable s;
       pbgo.ExperimentVersion := repository.Experiment s;
       pbgo.Task :=
         Some {| pbgo.Id := remoteAPIRequest.ID request;
                 pbgo.State := requestState.State (final request d);
                 pbgo.Error :=
                   (λ e, {| pbgo.Code := installerErrors.Code e;
                            pbgo.Message := installerErrors.Error e |})
                     <$> requestState.Err (final request d) |} |}
    ∈ remoteConfig.state (daemonImpl.rc (after (handleRemoteAPIRequest request d))).
Proof.
  intros HS Hpkg.
  destruct (frame_handleRemoteAPIRequest request d) as (_ & _ & HP & HID).
  rewrite installer_after_handleRemoteAPIRequest in HS.
  rewrite result_handleRemoteAPIRequest in HP, HID |- *. cbn [snd] in HP, HID |- *.
  rewrite trace_handleRemoteAPIRequest, after_handleRemoteAPIRequest.
  autorewrite with daemon.
  rewrite (refreshed_success _ _ state HS), (refreshReport_success _ _ state HS).
  cbn [remoteConfig.state remoteConfig.SetState].
  split.
  - rewrite app_assoc, List.filter_app. cbn [List.filter isSetState].
    by rewrite last_snoc.
  - apply list_elem_of_fmap.
    exists (remoteAPIRequest.Package request, s). split.
    + unfold packageState. cbn [fst snd]. rewrite HP, HID.
      by rewrite decide_True.
    + by apply elem_of_map_to_list.
Qed.

End Handler.

Section Loop.
Context {I C : Type} `{!installer.Installer I} `{!Externals C}.

Local Abbreviation daemon := (daemonImpl.t I C).

Implicit Types (d : daemon) (request : remoteAPIRequest.t)
  (schedule : list selected).

Lemma after_loopRequest request d :
  after (loopRequest request d) = after (handleRemoteAPIRequest request d).
Proof.
  unfold loopRequest, Errorf. autorewrite with daemon.
  by repeat case_match; autorewrite with daemon.
Qed.

Lemma result_loopRequest request d :
  (0 < daemonImpl.requestsWG d)%Z →
  result (loopRequest request d)
  = (Returns tt, (result (handleRemoteAPIRequest request d)).2).
Proof.
  intros HWG. unfold loopRequest, Errorf. autorewrite with daemon.
  rewrite (handleRemoteAPIRequest_returns request d HWG).
  by case_match; autorewrite with daemon.
Qed.

Lemma after_loopTimer d :
  after (loopTimer d)
  = set_installer (installer.GarbageCollect (daemonImpl.installer d)).1 d.
Proof.
  unfold loopTimer, Lock, Unlock, Errorf, installer_GarbageCollect.
  autorewrite with daemon. by case_match; autorewrite with daemon.
Qed.

Lemma trace_loopTimer d :
  trace (loopTimer d)
  = [EvLock; EvGarbageCollect; EvUnlock]
    ++ match (installer.GarbageCollect (daemonImpl.installer d)).2 with
       | Some e => [EvErrorf ("Daemon: could not run GC: " +:+ Error e)]
       | None => []
       end.
Proof.
  unfold loopTimer, Lock, Unlock, Errorf, installer_GarbageCollect.
  autorewrite with daemon. by case_match; autorewrite with daemon.
Qed.

(** One turn of the loop on a request. *)
Lemma dispatchLoop_request schedule d request pending :
  daemonImpl.requests d = request :: pending →
  (0 < daemonImpl.requestsWG d)%Z →
  result (dispatchLoop (SelectRequest :: schedule) d)
  = ((result (dispatchLoop schedule
                (after (handleRemoteAPIRequest request (set_requests pending d))))).1,
     (result (handleRemoteAPIRequest request (set_requests pending d))).2
     :: (result (dispatchLoop schedule
                   (after (handleRemoteAPIRequest request
                             (set_requests pending d))))).2)
  ∧ after (dispatchLoop (SelectRequest :: schedule) d)
    = after (dispatchLoop schedule
               (after (handleRemoteAPIRequest request (set_requests pending d)))).
Proof.
  intros Hq HWG.
  pose proof (result_loopRequest request (set_requests pending d) HWG) as Hres.
  pose proof (after_loopRequest request (set_requests pending d)) as Haft.
  split; cbn [dispatchLoop]; autorewrite with daemon; rewrite Hq;
    autorewrite with daemon; rewrite Hres, ?Haft; cbn [fst snd];
    by autorewrite with daemon.
Qed.

Lemma dispatchLoop_no_request schedule d :
  daemonImpl.requests d = [] →
  result (dispatchLoop (SelectRequest :: schedule) d)
  = result (dispatchLoop schedule d)
  ∧ after (dispatchLoop (SelectRequest :: schedule) d)
    = after (dispatchLoop schedule d).
Proof.
  intros Hq. split; cbn [dispatchLoop]; autorewrite with daemon; by rewrite Hq.
Qed.

Lemma dispatchLoop_timer schedule d :
  result (dispatchLoop (SelectTimer :: schedule) d)
  = result (dispatchLoop schedule
              (set_installer (installer.GarbageCollect (daemonImpl.installer d)).1 d))
  ∧ after (dispatchLoop (SelectTimer :: schedule) d)
    = after (dispatchLoop schedule
               (set_installer (installer.GarbageCollect (daemonImpl.installer d)).1 d))
  ∧ trace (dispatchLoop (SelectTimer :: schedule) d)
    = [EvLock; EvGarbageCollect; EvUnlock]
      ++ match (installer.GarbageCollect (daemonImpl.installer d)).2 with
         | Some e => [EvErrorf ("Daemon: could not run GC: " +:+ Error e)]
         | None => []
         end
      ++ trace (dispatchLoop schedule
                  (set_installer
                     (installer.GarbageCollect (daemonImpl.installer d)).1 d)).
Proof.
  repeat split; cbn [dispatchLoop]; autorewrite with daemon;
    rewrite ?after_loopTimer, ?trace_loopTimer; try done;
    by rewrite <- ?app_assoc.
Qed.

Lemma dispatchLoop_stop schedule d :
  result (dispatchLoop (SelectStop :: schedule) d)
  = (if daemonImpl.stopChan d then (LoopReturned, [])
     else result (dispatchLoop schedule d))
  ∧ after (dispatchLoop (SelectStop :: schedule) d)
    = (if daemonImpl.stopChan d then d else after (dispatchLoop schedule d)).
Proof.
  split; cbn [dispatchLoop]; autorewrite with daemon;
    by destruct (daemonImpl.stopChan d).
Qed.

(** What a run of the loop keeps and what it takes from the channel. *)
Lemma dispatchLoop_spec schedule : ∀ d,
  counted d →
  counted (after (dispatchLoop schedule d))
  ∧ (∀ msg, (result (dispatchLoop schedule d)).1 ≠ LoopPanicked msg)
  ∧ ((result (dispatchLoop schedule d)).1 = LoopReturned →
     daemonImpl.stopChan d = true)
  ∧ requestState.ID <$> (result (dispatchLoop schedule d)).2
    = remoteAPIRequest.ID
      <$> take (length (result (dispatchLoop schedule d)).2) (daemonImpl.requests d)
  ∧ requestState.Package <$> (result (dispatchLoop schedule d)).2
    = remoteAPIRequest.Package
      <$> take (length (result (dispatchLoop schedule d)).2) (daemonImpl.requests d)
  ∧ daemonImpl.requests (after (dispatchLoop schedule d))
    = drop (length (result (dispatchLoop schedule d)).2) (daemonImpl.requests d)
  ∧ daemonImpl.requestsWG (after (dispatchLoop schedule d))
    = (daemonImpl.requestsWG d
       - Z.of_nat (length (result (dispatchLoop schedule d)).2))%Z
  ∧ daemonImpl.stopChan (after (dispatchLoop schedule d)) = daemonImpl.stopChan d
  ∧ daemonImpl.catalog (after (dispatchLoop schedule d)) = daemonImpl.catalog d.
Proof.
  induction schedule as [|c schedule IH]; intros d Hc.
  { cbn [dispatchLoop ret result after fst snd length take drop fmap list_fmap].
    repeat split; try done. lia. }
  destruct c.
  - destruct (dispatchLoop_timer schedule d) as (-> & -> & _).
    apply (IH (set_installer _ d)). exact Hc.
  - destruct (dispatchLoop_stop schedule d) as (-> & ->).
    pose proof (IH d Hc) as IHd.
    destruct (daemonImpl.stopChan d) eqn:Hstop; [|exact IHd].
    cbn [fst snd length take drop fmap list_fmap]. repeat split; try done. lia.
  - destruct (daemonImpl.requests d) as [|request pending] eqn:Hq.
    { destruct (dispatchLoop_no_request schedule d Hq) as (-> & ->).
      rewrite <- Hq. by apply IH. }
    assert (0 < daemonImpl.requestsWG d)%Z as HWG.
    { unfold counted in Hc. rewrite Hq in Hc. cbn [length] in Hc. lia. }
    destruct (dispatchLoop_request schedule d request pending Hq HWG) as (-> & ->).
    destruct (frame_handleRemoteAPIRequest request (set_requests pending d))
      as ((Hstop & _ & Hcat & Hreq) & HWG' & HP & HID).
    autorewrite with daemon in Hreq, HWG', Hstop.
    change (daemonImpl.catalog (set_requests pending d))
      with (daemonImpl.catalog d) in Hcat.
    destruct (IH (after (handleRemoteAPIRequest request (set_requests pending d))))
      as (IH1 & IH2 & IH3 & IH4 & IH5 & IH6 & IH7 & IH8 & IH9).
    { unfold counted in Hc |- *. rewrite Hreq, HWG'.
      rewrite Hq in Hc. cbn [length] in Hc. lia. }
    rewrite Hreq in IH4, IH5, IH6. rewrite HWG' in IH7.
    rewrite Hstop in IH3, IH8. rewrite Hcat in IH9.
    cbn [fst snd length take drop fmap list_fmap].
    repeat split; try done.
    + rewrite HID. f_equal. exact IH4.
    + rewrite HP. f_equal. exact IH5.
    + rewrite IH7. lia.
Qed.

(** X15. In a run of the loop on a daemon whose requests in the channel
    were all added to the wait group, no call to [Done] makes the wait
    group panic, the loop returns only when the stop channel is closed,
    and the requests left in the channel are still counted at the end. *)
Theorem dispatchLoop_counted schedule d :
  counted d →
  counted (after (dispatchLoop schedule d))
  ∧ (∀ msg, (result (dispatchLoop schedule d)).1 ≠ LoopPanicked msg)
  ∧ ((result (dispatchLoop schedule d)).1 = LoopReturned →
     daemonImpl.stopChan d = true).
Proof.
  intros Hc. destruct (dispatchLoop_spec schedule d Hc) as (?&?&?&_). done.
Qed.

(** X16. The loop handles the requests in the order of the channel: the
    requests it handled are the first ones of the channel, in that order,
    with their ids and packages; the others are left in the channel; the
    wait group went down by the number of requests handled; the catalog
    and the stop channel are as they were. *)
Theorem dispatchLoop_fifo schedule d :
  counted d →
  requestState.ID <$> (result (dispatchLoop schedule d)).2
  = remoteAPIRequest.ID
    <$> take (length (result (dispatchLoop schedule d)).2) (daemonImpl.requests d)
  ∧ requestState.Package <$> (result (dispatchLoop schedule d)).2
    = remoteAPIRequest.Package
      <$> take (length (result (dispatchLoop schedule d)).2) (daemonImpl.requests d)
  ∧ daemonImpl.requests (after (dispatchLoop schedule d))
    = drop (length (result (dispatchLoop schedule d)).2) (daemonImpl.requests d)
  ∧ daemonImpl.requestsWG (after (dispatchLoop schedule d))
    = (daemonImpl.requestsWG d
       - Z.of_nat (length (result (dispatchLoop schedule d)).2))%Z
  ∧ daemonImpl.stopChan (after (dispatchLoop schedule d)) = daemonImpl.stopChan d
  ∧ daemonImpl.catalog (after (dispatchLoop schedule d)) = daemonImpl.catalog d.
Proof.
  intros Hc. destruct (dispatchLoop_spec schedule d Hc) as (_&_&_&?). done.
Qed.

(** X17. On the timer, the loop calls the installer's [GarbageCollect]
    under the mutex, without a refresh before or after it; when the call
    fails the loop logs the error and goes on with its next [select] all
    the same, from the installer as the call left it. *)
Theorem dispatchLoop_garbage_collect schedule d :
  result (dispatchLoop (SelectTimer :: schedule) d)
  = result (dispatchLoop schedule
              (set_installer (installer.GarbageCollect (daemonImpl.installer d)).1 d))
  ∧ after (dispatchLoop (SelectTimer :: schedule) d)
    = after (dispatchLoop schedule
               (set_installer (installer.GarbageCollect (daemonImpl.installer d)).1 d))
  ∧ trace (dispatchLoop (SelectTimer :: schedule) d)
    = [EvLock; EvGarbageCollect; EvUnlock]
      ++ match (installer.GarbageCollect (daemonImpl.installer d)).2 with
         | Some e => [EvErrorf ("Daemon: could not run GC: " +:+ Error e)]
         | None => []
         end
      ++ trace (dispatchLoop schedule
                  (set_installer
                     (installer.GarbageCollect (daemonImpl.installer d)).1 d)).
Proof. apply dispatchLoop_timer. Qed.

End Loop.

Section Shutdown.
Context {I C : Type} `{!installer.Installer I} `{!Externals C}.

Local Abbreviation daemon := (daemonImpl.t I C).

Implicit Types (d : daemon) (s : system I C) (request : remoteAPIRequest.t).

Lemma frame_loopRequest request d :
  kept d (after (loopRequest request d))
  ∧ daemonImpl.requestsWG (after (loopRequest request d))
    = (daemonImpl.requestsWG d - 1)%Z.
Proof.
  rewrite after_loopRequest.
  destruct (frame_handleRemoteAPIRequest request d) as (? & ? & _). done.
Qed.

Lemma frame_loopTimer d :
  kept d (after (loopTimer d))
  ∧ daemonImpl.requestsWG (after (loopTimer d)) = daemonImpl.requestsWG d.
Proof. rewrite after_loopTimer. split; [apply kept_set_installer|done]. Qed.

(** A step opens no closed stop channel and, but for the handling of a
    request, leaves the wait group as it is. *)
Lemma step_stopChan s s' :
  step s s' →
  daemonImpl.stopChan (shared s) = true →
  daemonImpl.stopChan (shared s') = true.
Proof.
  intros Hstep Hclosed.
  destruct Hstep; cbn [shared]; try done.
  - by destruct (frame_loopTimer (shared s)) as ((-> & _) & _).
  - by destruct (frame_loopRequest request (shared s)) as ((-> & _) & _).
Qed.

Lemma step_closed_Stop s s' :
  step s s' →
  daemonImpl.stopChan (shared s) = true →
  stop s = StopCalled ∨ stop s = StopLocked
  ∨ stop s = StopPanicked "close of closed channel" →
  stop s' = StopCalled ∨ stop s' = StopLocked
  ∨ stop s' = StopPanicked "close of closed channel".
Proof.
  intros Hstep Hclosed Hstop.
  destruct Hstep; cbn [stop]; try done; try (by right; left); try (by right; right).
  - congruence.
  - destruct Hstop as [?|[?|?]]; congruence.
Qed.

Lemma rtc_closed_Stop s s' :
  rtc step s s' →
  daemonImpl.stopChan (shared s) = true →
  stop s = StopCalled ∨ stop s = StopLocked
  ∨ stop s = StopPanicked "close of closed channel" →
  daemonImpl.stopChan (shared s') = true
  ∧ (stop s' = StopCalled ∨ stop s' = StopLocked
     ∨ stop s' = StopPanicked "close of closed channel").
Proof.
  induction 1 as [|s1 s2 s3 Hstep _ IH]; intros Hclosed Hstop; [done|].
  apply IH.
  - by apply (step_stopChan s1).
  - by apply (step_closed_Stop s1).
Qed.

(** X18. [Stop] on a daemon whose stop channel is closed already, as after
    a first [Stop], does not return: whatever the goroutines do, it is
    still to take the mutex, or holds it, or has panicked in [close]; and
    with the mutex free it can take it and panic, with the mutex
    released. *)
Theorem Stop_twice_panics s :
  daemonImpl.stopChan (shared s) = true →
  stop s = StopCalled →
  m s = false →
  (∀ s', rtc step s s' → stop s' ≠ StopReturned ∧ stop s' ≠ StopWaiting)
  ∧ (∃ s', rtc step s s'
           ∧ stop s' = StopPanicked "close of closed channel"
           ∧ m s' = false
           ∧ loop s' = loop s).
Proof.
  intros Hclosed Hstop Hm. split.
  - intros s' Hsteps.
    destruct (rtc_closed_Stop s s' Hsteps Hclosed (or_introl Hstop))
      as [_ [?|[?|?]]]; split; congruence.
  - eexists. split.
    { eapply rtc_l; [by apply step_stop_lock|].
      eapply rtc_l; [by apply step_stop_close_panic|]. apply rtc_refl. }
    done.
Qed.

(** While the loop has returned and the wait group counts a request, the
    request stays where it is and [Wait] does not return. *)
Lemma step_returned s s' :
  step s s' →
  loop s = LoopReturn →
  (0 < daemonImpl.requestsWG (shared s))%Z →
  stop s ≠ StopReturned →
  loop s' = LoopReturn
  ∧ daemonImpl.requestsWG (shared s') = daemonImpl.requestsWG (shared s)
  ∧ daemonImpl.requests (shared s') = daemonImpl.requests (shared s)
  ∧ handled s' = handled s
  ∧ stop s' ≠ StopReturned.
Proof.
  intros Hstep Hloop HWG Hstop.
  destruct Hstep; cbn [shared loop stop handled]; try congruence;
    try (by repeat split).
  lia.
Qed.

(** X19. Once the loop has returned on the closed stop channel while the
    wait group still counts a request, the requests in the channel are
    never handled and a [Stop] that has not returned never does. *)
Theorem loop_returned_leaves_requests s s' :
  loop s = LoopReturn →
  (0 < daemonImpl.requestsWG (shared s))%Z →
  stop s ≠ StopReturned →
  rtc step s s' →
  stop s' ≠ StopReturned
  ∧ handled s' = handled s
  ∧ daemonImpl.requests (shared s') = daemonImpl.requests (shared s)
  ∧ daemonImpl.requestsWG (shared s') = daemonImpl.requestsWG (shared s).
Proof.
  intros Hloop HWG Hstop Hsteps.
  induction Hsteps as [|s1 s2 s3 Hstep _ IH]; [done|].
  destruct (step_returned _ _ Hstep Hloop HWG Hstop) as (H1 & H2 & H3 & H4 & H5).
  destruct IH as (? & ? & ? & ?); [done|lia|done|].
  repeat split; congruence.
Qed.

(** The loop can take the requests of the channel one after the other. *)
Lemma dispatchLoop_drains (q : list remoteAPIRequest.t) : ∀ d,
  daemonImpl.requests d = q →
  counted d →
  length (result (dispatchLoop (replicate (length q) SelectRequest) d)).2 = length q.
Proof.
  induction q as [|request pending IH]; intros d Hq Hc; [done|].
  assert (0 < daemonImpl.requestsWG d)%Z as HWG.
  { unfold counted in Hc. rewrite Hq in Hc. cbn [length] in Hc. lia. }
  cbn [length replicate].
  destruct (dispatchLoop_request (replicate (length pending) SelectRequest)
              d request pending Hq HWG) as (-> & _).
  cbn [snd length]. f_equal.
  destruct (frame_handleRemoteAPIRequest request (set_requests pending d))
    as ((_ & _ & _ & Hreq) & HWG' & _).
  autorewrite with daemon in Hreq, HWG'.
  apply IH; [done|].
  unfold counted in Hc |- *. rewrite Hreq, HWG'.
  rewrite Hq in Hc. cbn [length] in Hc. lia.
Qed.

Lemma loop_drains (q : list remoteAPIRequest.t) : ∀ s,
  loop s = LoopSelect →
  m s = false →
  daemonImpl.requests (shared s) = q →
  counted (shared s) →
  ∃ s',
    rtc step s s'
    ∧ shared s'
      = after (dispatchLoop (replicate (length q) SelectRequest) (shared s))
    ∧ m s' = false
    ∧ loop s' = LoopSelect
    ∧ stop s' = stop s
    ∧ handled s'
      = handled s
        ++ (result (dispatchLoop (replicate (length q) SelectRequest) (shared s))).2.
Proof.
  induction q as [|request pending IH]; intros s Hloop Hm Hq Hc.
  { exists s. cbn. rewrite app_nil_r. by repeat split. }
  assert (0 < daemonImpl.requestsWG (shared s))%Z as HWG.
  { unfold counted in Hc. rewrite Hq in Hc. cbn [length] in Hc. lia. }
  pose proof (result_loopRequest request (set_requests pending (shared s)) HWG)
    as Hres.
  pose proof (after_loopRequest request (set_requests pending (shared s))) as Haft.
  destruct (frame_handleRemoteAPIRequest request (set_requests pending (shared s)))
    as ((_ & _ & _ & Hreq) & HWG' & _).
  autorewrite with daemon in Hreq, HWG'.
  destruct (dispatchLoop_request (replicate (length pending) SelectRequest)
              (shared s) request pending Hq HWG) as (Hr & Ha).
  destruct (IH {| shared := after (loopRequest request
                                     (set_requests pending (shared s)));
                  m := false;
                  loop := LoopSelect;
                  stop := stop s;
                  handled := handled s
                             ++ [(result (loopRequest request
                                            (set_requests pending (shared s)))).2];
                  events := events s
                            ++ trace (loopRequest request
                                        (set_requests pending (shared s))) |})
    as (s' & Hsteps & Hsh & Hm' & Hl' & Hst' & Hh'); cbn [shared m loop stop handled].
  - done.
  - done.
  - by rewrite Haft.
  - unfold counted in Hc |- *. rewrite Haft, Hreq, HWG'.
    rewrite Hq in Hc. cbn [length] in Hc. lia.
  - cbn [shared m loop stop handled] in Hsh, Hst', Hh'.
    exists s'. split; [|split; [|split; [|split; [|split]]]]; try done.
    + eapply rtc_l; [by eapply (step_select_request s request pending)|].
      eapply rtc_l; [|exact Hsteps].
      pose proof (step_request
                    {| shared := set_requests pending (shared s); m := m s;
                       loop := LoopRequest request; stop := stop s;
                       handled := handled s; events := events s |}
                    request eq_refl Hm) as Hstep.
      cbn [shared m loop stop handled events] in Hstep.
      assert (match (result (loopRequest request
                               (set_requests pending (shared s)))).1 with
              | Returns _ => LoopSelect
              | Panics msg => LoopPanic msg
              end = LoopSelect) as Hpc by (by rewrite Hres).
      by rewrite Hpc in Hstep.
    + cbn [length replicate]. by rewrite Ha, Hsh, Haft.
    + cbn [length replicate]. rewrite Hr, Hh', Hres, Haft. cbn [snd].
      by rewrite <- app_assoc.
Qed.

(** X20. When the loop takes the requests of the channel before [Stop]
    takes the mutex, [Stop] returns: from the call of [Stop] on a daemon
    with an open stop channel and a wait group that counts the requests of
    the channel and no other, the goroutines can reach a state where every
    request was handled, in the order of the channel, the stop channel and
    the remote configuration are closed, the wait group is at zero, and
    [Stop] has returned with the mutex released. *)
Theorem Stop_after_drain d :
  daemonImpl.stopChan d = false →
  daemonImpl.requestsWG d = Z.of_nat (length (daemonImpl.requests d)) →
  ∃ s,
    rtc step (stopCalled d) s
    ∧ stop s = StopReturned
    ∧ m s = false
    ∧ handled s
      = (result (dispatchLoop
                   (replicate (length (daemonImpl.requests d)) SelectRequest) d)).2
    ∧ requestState.ID <$> handled s = remoteAPIRequest.ID <$> daemonImpl.requests d
    ∧ daemonImpl.requests (shared s) = []
    ∧ daemonImpl.requestsWG (shared s) = 0%Z
    ∧ daemonImpl.stopChan (shared s) = true
    ∧ remoteConfig.closed (daemonImpl.rc (shared s)) = true.
Proof.
  intros Hopen HWG.
  assert (counted d) as Hc by (unfold counted; lia).
  destruct (loop_drains (daemonImpl.requests d) (stopCalled d))
    as (s1 & Hsteps & Hsh & Hm & Hl & Hst & Hh); try done.
  cbn [shared stop handled stopCalled app] in Hsh, Hst, Hh.
  pose proof (dispatchLoop_drains (daemonImpl.requests d) d eq_refl Hc) as Hlen.
  destruct (dispatchLoop_spec
              (replicate (length (daemonImpl.requests d)) SelectRequest) d Hc)
    as (_ & _ & _ & HID & _ & Hreq & HWG1 & Hstop1 & _).
  rewrite Hlen in HID, Hreq, HWG1.
  rewrite firstn_all in HID. rewrite drop_all in Hreq.
  eexists. split.
  { eapply rtc_trans; [exact Hsteps|].
    eapply rtc_l; [by apply step_stop_lock|].
    eapply rtc_l.
    { apply step_stop_close; [done|]. cbn [shared]. by rewrite Hsh, Hstop1. }
    eapply rtc_l; [|apply rtc_refl].
    apply step_stop_return; [done|]. cbn [shared].
    rewrite Hsh. unfold rc_Close. cbn [after]. 
    change (daemonImpl.requestsWG (set_stopChan true (set_rc ?r ?x)))
      with (daemonImpl.requestsWG x).
    rewrite HWG1. lia. }
  cbn [shared m loop stop handled].
  rewrite Hh, Hsh. repeat split; try done.
  change (daemonImpl.requestsWG
            (after (dispatchLoop
                      (replicate (length (daemonImpl.requests d)) SelectRequest) d))
          = 0%Z).
  rewrite HWG1. lia.
Qed.

End Shutdown.

Section Compositions.
Context {I C : Type} `{!installer.Installer I} `{!Externals C}.

Local Abbreviation daemon := (daemonImpl.t I C).

Implicit Types (d : daemon) (request : remoteAPIRequest.t).


(** X22. [newDaemon] returns a daemon with an open stop channel, an empty
    channel of requests, a wait group at zero and an empty catalog, after
    one refresh without a task; a [Stop] called on it can return. *)
Theorem newDaemon_idle (rc : remoteConfig.t) (i : I) (remoteUpdates : bool) :
  daemonImpl.requests (after (newDaemon rc i remoteUpdates)) = []
  ∧ daemonImpl.requestsWG (after (newDaemon rc i remoteUpdates)) = 0%Z
  ∧ daemonImpl.stopChan (after (newDaemon rc i remoteUpdates)) = false
  ∧ daemonImpl.catalog (after (newDaemon rc i remoteUpdates)) = emptyCatalog
  ∧ daemonImpl.installer (after (newDaemon rc i remoteUpdates)) = i
  ∧ daemonImpl.remoteUpdates (after (newDaemon rc i remoteUpdates)) = remoteUpdates
  ∧ List.filter installerCall (trace (newDaemon rc i remoteUpdates)) = [EvStates]
  ∧ (∃ s, rtc step (stopCalled (after (newDaemon rc i remoteUpdates))) s
          ∧ stop s = StopReturned
          ∧ m s = false
          ∧ handled s = []).
Proof.
  unfold newDaemon. rewrite after_refreshState, trace_refreshState.
  repeat split; try done.
  - unfold refreshReport. by case_match.
  - eexists. split.
    { eapply rtc_l; [by apply step_stop_lock|].
      eapply rtc_l; [by apply step_stop_close|].
      eapply rtc_l; [by apply step_stop_return|]. apply rtc_refl. }
    done.
Qed.

End Compositions.

(** ** More runs on the host *)

(** X4 on the agent with its experiment, refreshed for the request to stop
    it. *)
Lemma refreshState_publishes_witness :
  length
    (remoteConfig.state
       (daemonImpl.rc
          (after (refreshState (Some (newRequestContext Fake.stopRequest))
                    (Fake.daemonWith (Fake.agentAt "2.0") [Fake.agent2] [])))))
  = size (Fake.packages (Fake.agentAt "2.0")).
Proof.
  pose proof (refreshState_publishes (Some (newRequestContext Fake.stopRequest))
                (Fake.daemonWith (Fake.agentAt "2.0") [Fake.agent2] [])
                (Fake.packages (Fake.agentAt "2.0")) eq_refl) as (_ & Hlen & _).
  exact Hlen.
Defined.

(** X9 on a daemon with one request in the channel. *)
Lemma scheduleRemoteAPIRequest_enqueues_witness :
  daemonImpl.requests
    (after (scheduleRemoteAPIRequest (Fake.startRequest "2.0")
              (Fake.daemonWith (Fake.agentAt "2.0") [Fake.agent2]
                 [Fake.stopRequest])))
  = [Fake.stopRequest; Fake.startRequest "2.0"].
Proof.
  assert (length (daemonImpl.requests
                    (Fake.daemonWith (Fake.agentAt "2.0") [Fake.agent2]
                       [Fake.stopRequest])) < requestsCapacity) as Hroom.
  { vm_compute. lia. }
  pose proof (scheduleRemoteAPIRequest_enqueues (Fake.startRequest "2.0")
                (Fake.daemonWith (Fake.agentAt "2.0") [Fake.agent2]
                   [Fake.stopRequest]) Hroom) as (_ & _ & Hq & _).
  exact Hq.
Defined.

(** X10 on the daemon with the full channel. *)
Lemma scheduleRemoteAPIRequest_blocks_witness :
  result (scheduleRemoteAPIRequest (Fake.startRequest "2.0") fullDaemon) = None
  ∧ daemonImpl.requestsWG
      (after (scheduleRemoteAPIRequest (Fake.startRequest "2.0") fullDaemon))
    = 33%Z.
Proof.
  assert (requestsCapacity ≤ length (daemonImpl.requests fullDaemon))%nat as Hfull.
  { vm_compute. lia. }
  pose proof (scheduleRemoteAPIRequest_blocks (Fake.startRequest "2.0")
                fullDaemon Hfull) as (Hres & _ & HWG & _).
  split; [exact Hres|exact HWG].
Defined.

(** X12 on the request to stop the experiment, with an installer that
    fails. *)
Lemma handleRemoteAPIRequest_status_witness :
  ∃ err,
    (result (handleRemoteAPIRequest Fake.stopRequest
               (Fake.daemonWith failingAgent [Fake.agent2] [Fake.stopRequest]))).1
    = Returns err
    ∧ requestState.State
        (result (handleRemoteAPIRequest Fake.stopRequest
                   (Fake.daemonWith failingAgent [Fake.agent2]
                      [Fake.stopRequest]))).2
      = match err with
        | None => pbgo.TaskState_DONE
        | Some _ => pbgo.TaskState_ERROR
        end.
Proof.
  assert (0 < daemonImpl.requestsWG
                (Fake.daemonWith failingAgent [Fake.agent2] [Fake.stopRequest]))%Z
    as HWG by reflexivity.
  destruct (handleRemoteAPIRequest_status Fake.stopRequest
              (Fake.daemonWith failingAgent [Fake.agent2] [Fake.stopRequest]) HWG)
    as (err & Hres & Hst).
  exists err. split; [exact Hres|]. exact (proj1 Hst).
Defined.

(** X13 on the installer whose queries fail. *)
Lemma handleRemoteAPIRequest_query_failure_witness :
  List.filter installerCall
    (trace (handleRemoteAPIRequest Fake.stopRequest
              (Fake.daemonWith Fake.unreachable [] [Fake.stopRequest])))
  = [EvStates; EvState "agent"; EvStates].
Proof.
  pose proof (handleRemoteAPIRequest_query_failure Fake.stopRequest
                (Fake.daemonWith Fake.unreachable [] [Fake.stopRequest])
                (errorString "installer not found") eq_refl) as (Htr & _).
  exact Htr.
Defined.

(** X14 on the request to stop the experiment. *)
Lemma handleRemoteAPIRequest_reports_witness :
  {| pbgo.Package := "agent";
     pbgo.StableVersion := "1.0";
     pbgo.ExperimentVersion := "";
     pbgo.Task := Some {| pbgo.Id := "task-1";
                          pbgo.State := pbgo.TaskState_DONE;
                          pbgo.Error := None |} |}
  ∈ remoteConfig.state
      (daemonImpl.rc
         (after (handleRemoteAPIRequest Fake.stopRequest
                   (Fake.daemonWith (Fake.agentAt "2.0") [Fake.agent2]
                      [Fake.stopRequest])))).
Proof.
  pose proof (handleRemoteAPIRequest_reports Fake.stopRequest
                (Fake.daemonWith (Fake.agentAt "2.0") [Fake.agent2]
                   [Fake.stopRequest])
                (Fake.packages (Fake.agentAt ""))
                {| repository.Stable := "1.0"; repository.Experiment := "" |})
    as Hthm.
  destruct Hthm as (_ & Hin).
  - by vm_compute.
  - by vm_compute.
  - exact Hin.
Defined.

(** X15 and X16 on a channel with the unknown method before the request to
    stop the experiment. *)
Lemma dispatchLoop_counted_witness :
  counted
    (after (dispatchLoop [SelectRequest; SelectTimer; SelectRequest]
              (Fake.daemonWith (Fake.agentAt "2.0") [Fake.agent2]
                 [Fake.restartRequest "1.0" "2.0"; Fake.stopRequest]))).
Proof.
  assert (counted
            (Fake.daemonWith (Fake.agentAt "2.0") [Fake.agent2]
               [Fake.restartRequest "1.0" "2.0"; Fake.stopRequest])) as Hc.
  { unfold counted. vm_compute. discriminate. }
  exact (proj1 (dispatchLoop_counted [SelectRequest; SelectTimer; SelectRequest]
                  _ Hc)).
Defined.

Lemma dispatchLoop_fifo_witness :
  daemonImpl.requestsWG
    (after (dispatchLoop [SelectRequest; SelectTimer; SelectRequest]
              (Fake.daemonWith (Fake.agentAt "2.0") [Fake.agent2]
                 [Fake.restartRequest "1.0" "2.0"; Fake.stopRequest])))
  = (2 - Z.of_nat
           (length
              (result (dispatchLoop [SelectRequest; SelectTimer; SelectRequest]
                         (Fake.daemonWith (Fake.agentAt "2.0") [Fake.agent2]
                            [Fake.restartRequest "1.0" "2.0";
                             Fake.stopRequest]))).2))%Z.
Proof.
  assert (counted
            (Fake.daemonWith (Fake.agentAt "2.0") [Fake.agent2]
               [Fake.restartRequest "1.0" "2.0"; Fake.stopRequest])) as Hc.
  { unfold counted. vm_compute. discriminate. }
  destruct (dispatchLoop_fifo [SelectRequest; SelectTimer; SelectRequest] _ Hc)
    as (_ & _ & _ & HWG & _).
  exact HWG.
Defined.

(** X18 on the daemon of the scenario with its stop channel closed. *)
Lemma Stop_twice_panics_witness :
  ∃ s',
    rtc step
      (stopCalled (set_stopChan true
                     (Fake.daemonWith (Fake.agentAt "2.0") [Fake.agent2] [])))
      s'
    ∧ stop s' = StopPanicked "close of closed channel".
Proof.
  destruct (Stop_twice_panics
              (stopCalled (set_stopChan true
                             (Fake.daemonWith (Fake.agentAt "2.0") [Fake.agent2] [])))
              eq_refl eq_refl eq_refl) as (_ & s' & Hsteps & Hstop & _).
  exists s'. split; [exact Hsteps|exact Hstop].
Defined.

(** X19 on the loop that returned with the request to stop the experiment
    in the channel, while [Stop] waits. *)
Lemma loop_returned_leaves_requests_witness :
  stop
    {| shared := set_stopChan true
                   (Fake.daemonWith (Fake.agentAt "2.0") [Fake.agent2]
                      [Fake.stopRequest]);
       m := true; loop := LoopReturn; stop := StopWaiting;
       handled := []; events := [] |}
  ≠ StopReturned.
Proof.
  refine (proj1 (loop_returned_leaves_requests
                   {| shared := set_stopChan true
                                  (Fake.daemonWith (Fake.agentAt "2.0")
                                     [Fake.agent2] [Fake.stopRequest]);
                      m := true; loop := LoopReturn; stop := StopWaiting;
                      handled := []; events := [] |}
                   _ eq_refl _ _ (rtc_refl _ _))).
  - reflexivity.
  - discriminate.
Defined.

(** X20 on the daemon of the scenario. *)
Lemma Stop_after_drain_witness :
  ∃ s,
    rtc step
      (stopCalled (Fake.daemonWith (Fake.agentAt "2.0") [Fake.agent2]
                     [Fake.stopRequest]))
      s
    ∧ stop s = StopReturned
    ∧ requestState.ID <$> handled s = ["task-1"].
Proof.
  destruct (Stop_after_drain
              (Fake.daemonWith (Fake.agentAt "2.0") [Fake.agent2] [Fake.stopRequest])
              eq_refl eq_refl) as (s & Hsteps & Hstop & _ & _ & HID & _).
  exists s. split; [exact Hsteps|]. split; [exact Hstop|exact HID].
Defined.

